(** * AI inference energy dashboards: data pipeline and its properties

    A shallow embedding of the tabular pipeline of the two dashboard scripts
    [ai_energy_dashboard_final.py] and [ai_energy_dashboard_scaled_final.py]:
    the loader that derives the energy columns, the model/device filter, the
    unit conversion and the aggregations that feed the charts.

    Conventions of the embedding.
    - A data frame is an ordered list of column names and a list of rows; a
      row maps column names to cells.
    - A float is an exact rational ([Qc]) or not-a-number ([NaN]); rounding
      and infinities are outside the model, and a division by a zero count
      yields [NaN].
    - A timestamp is a number of nanoseconds since 1970-01-01T00:00 (a
      Thursday), without time zone.
    - An exception is a value of type [error]; code that can raise returns
      a [result]. *)

From Stdlib Require Import ZArith QArith Qcanon Ascii.
From stdpp Require Import base option list gmap strings numbers sorting.

Open Scope Z_scope.

(** ** The part of the data-frame library the scripts use *)

Module Pandas.

(** A cell of a table read from a CSV file. [NaN] stands for every missing
    value (NaN, None, NaT). *)
Inductive cell : Type :=
  | NaN
  | Str (s : string)
  | Num (q : Qc)
  | Timestamp (t : Z).

#[export] Instance cell_eq_dec : EqDecision cell.
Proof. solve_decision. Defined.

Inductive error : Type :=
  | KeyError (missing : list string)
  | TypeError
  | AttributeError.

Inductive result (A : Type) : Type :=
  | Ok (a : A)
  | Raise (e : error).
Arguments Ok {A} a.
Arguments Raise {A} e.

#[export] Instance error_eq_dec : EqDecision error.
Proof. solve_decision. Defined.
#[export] Instance result_eq_dec {A} `{EqDecision A} : EqDecision (result A).
Proof. solve_decision. Defined.

#[export] Instance result_ret : MRet result := λ A a, Ok a.
#[export] Instance result_bind : MBind result := λ A B f m,
  match m with
  | Ok a => f a
  | Raise e => Raise e
  end.

Record DataFrame : Type := mkDataFrame {
  columns : list string;
  rows : list (gmap string cell)
}.

#[export] Instance DataFrame_eq_dec : EqDecision DataFrame.
Proof. solve_decision. Defined.

Definition Series : Type := list cell.

(** The cell of column [c] in a row; a row that lacks the column reads as
    missing. *)
Definition at_col (c : string) (r : gmap string cell) : cell :=
  default NaN (r !! c).

(** [df[c]] *)
Definition getcol (c : string) (df : DataFrame) : result Series :=
  if decide (c ∈ columns df)
  then Ok (at_col c <$> rows df)
  else Raise (KeyError [c]).

(** [df[c] = s]: overwrites the column when it exists, appends it
    otherwise. *)
Definition setcol (c : string) (s : Series) (df : DataFrame) : DataFrame :=
  {| columns := if decide (c ∈ columns df) then columns df
                else columns df ++ [c];
     rows := zip_with (λ r v, <[c:=v]> r) (rows df) s |}.

(** *** Numbers *)

Definition qz (z : Z) : Qc := Q2Qc (inject_Z z).

(** [s * k] and [s / k] for a float [k]: missing values stay missing,
    strings and timestamps raise. *)
Definition cell_mul (k : Qc) (x : cell) : result cell :=
  match x with
  | NaN => Ok NaN
  | Num q => Ok (Num (q * k)%Qc)
  | Str _ | Timestamp _ => Raise TypeError
  end.

Definition cell_div (k : Qc) (x : cell) : result cell :=
  match x with
  | NaN => Ok NaN
  | Num q => Ok (Num (q / k)%Qc)
  | Str _ | Timestamp _ => Raise TypeError
  end.

Definition smul (s : Series) (k : Qc) : result Series := mapM (cell_mul k) s.
Definition sdiv (s : Series) (k : Qc) : result Series := mapM (cell_div k) s.

(** [pd.to_numeric(s, errors="coerce")]: numbers pass, strings are parsed
    by the library's float parser [parse] and become missing when they do
    not parse, timestamps become their integer value. It never raises. *)
Definition cell_to_numeric (parse : string → option Qc) (x : cell) : cell :=
  match x with
  | NaN => NaN
  | Num q => Num q
  | Str s => match parse s with Some q => Num q | None => NaN end
  | Timestamp t => Num (qz t)
  end.

Definition to_numeric (parse : string → option Qc) (s : Series) : Series :=
  cell_to_numeric parse <$> s.

(** [s.fillna(other)] *)
Definition cell_fillna (x y : cell) : cell :=
  match x with
  | NaN => y
  | _ => x
  end.

Definition fillna (s other : Series) : Series := zip_with cell_fillna s other.

(** *** Timestamps *)

Definition ns_per_hour : Z := 3600 * 1000000000.
Definition ns_per_day : Z := 24 * ns_per_hour.

Definition day_names : list string :=
  ["Monday"; "Tuesday"; "Wednesday"; "Thursday"; "Friday"; "Saturday";
   "Sunday"]%string.

Definition floor_H (t : Z) : Z := t - t mod ns_per_hour.
Definition hour_of (t : Z) : Z := (t / ns_per_hour) mod 24.
Definition weekday_of (t : Z) : Z := (t / ns_per_day + 3) mod 7.
Definition day_name (t : Z) : string :=
  default "Monday"%string (day_names !! Z.to_nat (weekday_of t)).

(** The [.dt] accessor exists on columns of timestamps only. *)
Definition dt (f : Z → cell) (x : cell) : result cell :=
  match x with
  | NaN => Ok NaN
  | Timestamp t => Ok (f t)
  | Str _ | Num _ => Raise AttributeError
  end.

Definition dt_floor_H (s : Series) : result Series :=
  mapM (dt (λ t, Timestamp (floor_H t))) s.
Definition dt_day_name (s : Series) : result Series :=
  mapM (dt (λ t, Str (day_name t))) s.
Definition dt_hour (s : Series) : result Series :=
  mapM (dt (λ t, Num (qz (hour_of t)))) s.

(** *** Selection *)

Definition notna (x : cell) : bool :=
  match x with NaN => false | _ => true end.

(** [s.dropna()], [s.unique()] (first occurrences, in order) and
    [s.isin(values)]; a missing value is a member of a list that holds a
    missing value. *)
Definition dropna (s : Series) : Series := filter (λ x, notna x = true) s.
Definition unique (s : Series) : Series := reverse (remove_dups (reverse s)).
Definition isin (s : Series) (values : list cell) : list bool :=
  (λ x, bool_decide (x ∈ values)) <$> s.

(** [df[mask]] *)
Definition bool_index (df : DataFrame) (mask : list bool) : DataFrame :=
  {| columns := columns df;
     rows := fst <$> filter (λ p, p.2 = true) (zip (rows df) mask) |}.


(** *** Grouping *)

(** Keys are compared kind by kind; a column read from a CSV file holds one
    kind of value besides missing ones, for which the order below is the
    library's. *)
Definition kind (x : cell) : Z :=
  match x with NaN => 0 | Num _ => 1 | Str _ => 2 | Timestamp _ => 3 end.

Definition cell_leb (x y : cell) : bool :=
  match x, y with
  | Num p, Num q => bool_decide (p ≤ q)%Qc
  | Str s, Str t => String.leb s t
  | Timestamp a, Timestamp b => a <=? b
  | _, _ => kind x <=? kind y
  end.

Fixpoint key_leb (k1 k2 : list cell) : bool :=
  match k1, k2 with
  | [], _ => true
  | _ :: _, [] => false
  | x :: k1, y :: k2 =>
      if decide (x = y) then key_leb k1 k2 else cell_leb x y
  end.

Definition cell_le (x y : cell) : Prop := cell_leb x y = true.
Definition key_le (k1 k2 : list cell) : Prop := key_leb k1 k2 = true.

#[export] Instance cell_le_dec x y : Decision (cell_le x y).
Proof. unfold cell_le. apply _. Defined.
#[export] Instance key_le_dec k1 k2 : Decision (key_le k1 k2).
Proof. unfold key_le. apply _. Defined.

(** A float column: strings and timestamps cannot be summed. *)
Definition as_float (x : cell) : result (option Qc) :=
  match x with
  | NaN => Ok None
  | Num q => Ok (Some q)
  | Str _ | Timestamp _ => Raise TypeError
  end.

Definition floats (s : Series) : result (list (option Qc)) := mapM as_float s.

(** [s.sum()]: missing values are skipped, the empty sum is 0. *)
Definition fsum (l : list (option Qc)) : Qc :=
  foldr (λ x acc, (default 0 x + acc)%Qc) 0%Qc l.

(** The key of every row for [df.groupby(on)]. *)
Definition row_keys (on : list string) (df : DataFrame)
    : result (list (list cell)) :=
  match filter (λ c, c ∉ columns df) on with
  | [] => Ok ((λ r, (λ c, at_col c r) <$> on) <$> rows df)
  | c :: _ => Raise (KeyError [c])
  end.

(** The groups: the distinct keys without missing component, ascending. *)
Definition key_notna (k : list cell) : Prop := forallb notna k = true.

#[export] Instance key_notna_dec k : Decision (key_notna k).
Proof. unfold key_notna. apply _. Defined.

Definition group_keys (ks : list (list cell)) : list (list cell) :=
  merge_sort key_le (remove_dups (filter key_notna ks)).

(** The values of the rows whose key is [k]. *)
Definition group_of {A} (k : list cell) (ks : list (list cell)) (vs : list A)
    : list A :=
  snd <$> filter (λ p, p.1 = k) (zip ks vs).

(** [groupby(...)[v].sum()] and [groupby(...)[v].nunique()] *)
Definition groupby_sum (ks : list (list cell)) (vs : list (option Qc))
    : list (list cell * Qc) :=
  (λ k, (k, fsum (group_of k ks vs))) <$> group_keys ks.

Definition nunique (s : Series) : nat := length (remove_dups (dropna s)).

Definition groupby_nunique (ks : list (list cell)) (vs : Series)
    : list (list cell * nat) :=
  (λ k, (k, nunique (group_of k ks vs))) <$> group_keys ks.

(** The value at a label of an indexed series. *)
Definition assoc {A} (k : list cell) (l : list (list cell * A)) : option A :=
  head (snd <$> filter (λ p, p.1 = k) l).

(** [a / b] for two indexed series: the labels of both, ascending, and at
    each label the quotient, missing when a side lacks the label or the
    divisor is 0. *)
Definition float_div (x : option Qc) (n : option nat) : option Qc :=
  match x, n with
  | Some q, Some (S n) => Some (q / qz (Z.of_nat (S n)))%Qc
  | _, _ => None
  end.

Definition series_div (a : list (list cell * Qc)) (b : list (list cell * nat))
    : list (list cell * option Qc) :=
  (λ k, (k, float_div (assoc k a) (assoc k b)))
    <$> merge_sort key_le (remove_dups ((fst <$> a) ++ (fst <$> b))).

(** [a * k] for an indexed series and a number. *)
Definition series_mul (a : list (list cell * option Qc)) (k : Qc)
    : list (list cell * option Qc) :=
  (λ p : list cell * option Qc, (p.1, (λ x, x * k)%Qc <$> p.2)) <$> a.

(** [sort_values(value, ascending=False)]: largest first, missing values
    last. *)
Definition desc_le (x y : option Qc) : Prop :=
  match x, y with
  | Some p, Some q => (q ≤ p)%Qc
  | _, None => True
  | None, Some _ => False
  end.

#[export] Instance desc_le_dec x y : Decision (desc_le x y).
Proof. destruct x, y; simpl; apply _. Defined.

Definition sort_values_desc {A} (value : A → option Qc) (l : list A)
    : list A :=
  merge_sort (λ a b, desc_le (value a) (value b)) l.

(** *** Pivot tables *)

Record PivotTable : Type := mkPivotTable {
  index : list cell;
  pcolumns : list cell;
  cells : list (list (option Qc))
}.

#[export] Instance PivotTable_eq_dec : EqDecision PivotTable.
Proof. solve_decision. Defined.

(** The labels at position [n] of the keys of a grouped series, distinct
    and ascending. *)
Definition labels (n : nat) (g : list (list cell * Qc)) : list cell :=
  merge_sort cell_le (remove_dups ((λ p, default NaN (p.1 !! n)) <$> g)).

(** [g.unstack()] for a series grouped by two keys: one row per first
    label and one column per second label; a combination without group is
    missing. *)
Definition unstack (g : list (list cell * Qc)) : PivotTable :=
  {| index := labels 0 g;
     pcolumns := labels 1 g;
     cells := (λ a, (λ b, assoc [a; b] g) <$> labels 1 g) <$> labels 0 g |}.

(** [pivot_table(values, index, columns, aggfunc="sum")] on the three
    columns: the rows are grouped by index and column label, the groups
    are summed and the sums are laid out as a table. *)
Definition pivot_table_sum (i c : Series) (v : list (option Qc))
    : PivotTable :=
  unstack (groupby_sum (zip_with (λ a b, [a; b]) i c) v).

(** [p.fillna(x)] *)
Definition pivot_fillna (x : Qc) (p : PivotTable) : PivotTable :=
  {| index := index p;
     pcolumns := pcolumns p;
     cells := (λ r : list (option Qc), (λ y, Some (default x y)) <$> r)
                <$> cells p |}.

Definition label_string (x : cell) : string :=
  match x with Str s => s | _ => "" end.

(** [p[names]]: the listed columns in the listed order; raises when a
    listed column does not exist. *)
Definition select_columns (names : list cell) (p : PivotTable)
    : result PivotTable :=
  match filter (λ n, n ∉ pcolumns p) names with
  | [] =>
      Ok {| index := index p;
            pcolumns := names;
            cells :=
              (λ r : list (option Qc),
                 (λ n, '(j, _) ← list_find (λ m, m = n) (pcolumns p);
                       mjoin (r !! j)) <$> names) <$> cells p |}
  | missing => Raise (KeyError (label_string <$> missing))
  end.

End Pandas.

(** ** The string methods the scripts use *)

Module Py.
Open Scope string_scope.

(** [s.split(sep)] for a separator of one character: the pieces between
    the separators, empty pieces included; never an empty list. *)
Fixpoint split (sep : ascii) (s : string) : list string :=
  match s with
  | EmptyString => [EmptyString]
  | String a s' =>
      if decide (a = sep) then EmptyString :: split sep s'
      else match split sep s' with
           | w :: ws => String a w :: ws
           | [] => [String a EmptyString]
           end
  end.

(** [s.lstrip(chars)], [s.rstrip(chars)] and [s.strip(chars)]: the
    characters of [chars] are removed from the ends. *)
Fixpoint lstrip (chars : list ascii) (s : string) : string :=
  match s with
  | EmptyString => EmptyString
  | String a s' => if decide (a ∈ chars) then lstrip chars s' else s
  end.

Fixpoint rstrip (chars : list ascii) (s : string) : string :=
  match s with
  | EmptyString => EmptyString
  | String a s' =>
      match rstrip chars s' with
      | EmptyString =>
          if decide (a ∈ chars) then EmptyString else String a EmptyString
      | r => String a r
      end
  end.

Definition strip (chars : list ascii) (s : string) : string :=
  lstrip chars (rstrip chars s).

End Py.

(** ** Views shared by the two scripts

    The aggregations of the two scripts differ only in the name of the value
    column ([selected_unit] in the first script, ["display_energy"] in the
    second); they are written once over that name. *)

Module Views.
Import Pandas.
Open Scope string_scope.

(** [df["model_name"].unique()] and [df["device"].dropna().unique()] *)
Definition model_options (df : DataFrame) : result (list cell) :=
  s ← getcol "model_name" df; Ok (unique s).

Definition device_options (df : DataFrame) : result (list cell) :=
  s ← getcol "device" df; Ok (unique (dropna s)).

(** [df[(df["model_name"].isin(selected_models))
        & (df["device"].isin(selected_devices))]] *)
Definition df_filtered (df : DataFrame) (selected_models selected_devices : list cell)
    : result DataFrame :=
  m ← getcol "model_name" df;
  d ← getcol "device" df;
  Ok (bool_index df (zip_with andb (isin m selected_models)
                                   (isin d selected_devices))).

(** [df.groupby(on)[value].sum()] *)
Definition groupby_sum_of (on : list string) (value : string) (df : DataFrame)
    : result (list (list cell * Qc)) :=
  ks ← row_keys on df;
  s ← getcol value df;
  v ← floats s;
  Ok (groupby_sum ks v).

(** [df_filtered[value].sum()] *)
Definition total_val (value : string) (df_filtered : DataFrame) : result Qc :=
  s ← getcol value df_filtered;
  v ← floats s;
  Ok (fsum v).

Definition hourly_model (value : string) (df_filtered : DataFrame)
    : result (list (list cell * Qc)) :=
  groupby_sum_of ["hour"; "model_name"] value df_filtered.

Definition device_energy (value : string) (df_filtered : DataFrame)
    : result (list (list cell * Qc)) :=
  g ← groupby_sum_of ["device"] value df_filtered;
  Ok (sort_values_desc (λ p, Some p.2) g).

Definition cross_data (value : string) (df_filtered : DataFrame)
    : result (list (list cell * Qc)) :=
  groupby_sum_of ["model_name"; "device"] value df_filtered.

(** [df_filtered.groupby("model_name")[value].sum()
      / df_filtered.groupby("model_name")["hour"].nunique()] *)
Definition avg_hourly (value : string) (df_filtered : DataFrame)
    : result (list (list cell * option Qc)) :=
  sums ← groupby_sum_of ["model_name"] value df_filtered;
  ks ← row_keys ["model_name"] df_filtered;
  h ← getcol "hour" df_filtered;
  Ok (series_div sums (groupby_nunique ks h)).

(** The heatmap table: the hour of day is added to the filtered table, the
    pivot is built, its gaps are filled with 0 and the seven weekday
    columns are selected by name. *)
Definition pivot (value : string) (df_filtered : DataFrame)
    : result PivotTable :=
  created_at ← getcol "created_at" df_filtered;
  hour_of_day ← dt_hour created_at;
  let df_filtered := setcol "hour_of_day" hour_of_day df_filtered in
  v ← getcol value df_filtered;
  i ← getcol "hour_of_day" df_filtered;
  c ← getcol "weekday" df_filtered;
  v ← floats v;
  let pivot := pivot_fillna 0%Qc (pivot_table_sum i c v) in
  select_columns (Str <$> day_names) pivot.

(** The rows a scatter chart draws: the x column, the y column and the
    colour column of every row. *)
Definition scatter (x y color : string) (df_filtered : DataFrame)
    : result (list (cell * cell * cell)) :=
  xs ← getcol x df_filtered;
  ys ← getcol y df_filtered;
  cs ← getcol color df_filtered;
  Ok (zip (zip xs ys) cs).

(** [selected_unit_label.split(" ")[-1].strip("()")]; the list [split]
    returns is never empty, so the last piece exists. *)
Definition unit_suffix (selected_unit_label : string) : string :=
  match last (Py.split " " selected_unit_label) with
  | Some w => Py.strip ["("; ")"]%char w
  | None => ""
  end.

End Views.

(** ** ai_energy_dashboard_final.py *)

Module Final.
Import Pandas.
Open Scope string_scope.

(** [load_data], applied to the table [pd.read_csv] returns (with
    [created_at] parsed as timestamps). *)
Definition load_data (df : DataFrame) : result DataFrame :=
  created_at ← getcol "created_at" df;
  hour ← dt_floor_H created_at;
  let df := setcol "hour" hour df in
  created_at ← getcol "created_at" df;
  weekday ← dt_day_name created_at;
  let df := setcol "weekday" weekday df in
  total_duration ← getcol "total_duration" df;
  energy_joules ← sdiv total_duration (qz 1000000000);
  let df := setcol "energy_joules" energy_joules df in
  energy_joules ← getcol "energy_joules" df;
  energy_kwh ← sdiv energy_joules (qz 3600000);
  let df := setcol "energy_kwh" energy_kwh df in
  energy_kwh ← getcol "energy_kwh" df;
  co2_kg ← smul energy_kwh (Q2Qc (475 # 1000));
  let df := setcol "co2_kg" co2_kg df in
  energy_joules ← getcol "energy_joules" df;
  lightbulb_hours ← sdiv energy_joules (qz (50 * 3600));
  let df := setcol "lightbulb_hours" lightbulb_hours df in
  Ok df.

Definition model_options := Views.model_options.
Definition device_options := Views.device_options.

Definition unit_options : list (string * string) :=
  [("Joules (J)", "energy_joules");
   ("Kilowatt-hours (kWh)", "energy_kwh");
   ("CO₂ Emissions (kg)", "co2_kg");
   ("50W Lightbulb Hours", "lightbulb_hours")].

Definition df_filtered := Views.df_filtered.

Section Selected.
(** The column the unit radio button selects. *)
Variable selected_unit : string.

Definition total_val := Views.total_val selected_unit.
Definition hourly_model := Views.hourly_model selected_unit.
Definition device_energy := Views.device_energy selected_unit.
Definition cross_data := Views.cross_data selected_unit.
Definition avg_hourly := Views.avg_hourly selected_unit.

Definition forecast_hours : Z := 24 * 7.

Definition forecast_df (df_filtered : DataFrame)
    : result (list (list cell * option Qc)) :=
  avg_hourly ← avg_hourly df_filtered;
  Ok (sort_values_desc snd (series_mul avg_hourly (qz forecast_hours))).

Definition pivot := Views.pivot selected_unit.

Definition fig_tokens :=
  Views.scatter "response_token_length" selected_unit "model_name".
End Selected.

(** Whether [sub] occurs in [s] (the [in] of two strings). *)
Fixpoint contains (sub s : string) : bool :=
  String.prefix sub s
  || match s with
     | EmptyString => false
     | String _ s' => contains sub s'
     end.

Definition complexity_cols (df_filtered : DataFrame) : list string :=
  let cols :=
    filter (λ col, contains "diversity" col || contains "length" col = true)
           (columns df_filtered) in
  foldl (λ (cols : list string) (extra : string),
           if decide (extra ∈ columns df_filtered ∧ extra ∉ cols)
           then (cols ++ [extra])%list else cols)
        cols ["prompt_token_length"; "response_token_length"].

Definition fig_complexity (selected_unit selected_complexity : string) :=
  Views.scatter selected_complexity selected_unit "device".

End Final.

(** ** ai_energy_dashboard_scaled_final.py *)

Module Scaled.
Import Pandas.
Open Scope string_scope.

Definition scale_factor : Z := 50493.

Section Loader.
(** The float parser of the library, for the strings of a column that
    was not read as numbers. *)
Variable parse_float : string → option Qc.

Definition load_data (df : DataFrame) : result DataFrame :=
  created_at ← getcol "created_at" df;
  hour ← dt_floor_H created_at;
  let df := setcol "hour" hour df in
  created_at ← getcol "created_at" df;
  weekday ← dt_day_name created_at;
  let df := setcol "weekday" weekday df in
  raw ← getcol "energy_consumption_llm_total" df;
  measured_energy_joules ← smul (to_numeric parse_float raw) (qz scale_factor);
  let df := setcol "measured_energy_joules" measured_energy_joules df in
  total_duration ← getcol "total_duration" df;
  estimated_energy_joules ← sdiv total_duration (qz 1000000000);
  let df := setcol "estimated_energy_joules" estimated_energy_joules df in
  measured ← getcol "measured_energy_joules" df;
  estimated ← getcol "estimated_energy_joules" df;
  let df := setcol "final_energy_joules" (fillna measured estimated) df in
  final ← getcol "final_energy_joules" df;
  energy_kwh ← sdiv final (qz 3600000);
  let df := setcol "energy_kwh" energy_kwh df in
  energy_kwh ← getcol "energy_kwh" df;
  co2_kg ← smul energy_kwh (Q2Qc (475 # 1000));
  let df := setcol "co2_kg" co2_kg df in
  final ← getcol "final_energy_joules" df;
  lightbulb_hours ← sdiv final (qz (50 * 3600));
  let df := setcol "lightbulb_hours" lightbulb_hours df in
  Ok df.
End Loader.

Definition model_options := Views.model_options.
Definition device_options := Views.device_options.

Definition energy_source_options : list (string * string) :=
  [("Final Energy (measured → estimated fallback)", "final_energy_joules");
   ("Measured Only (energy_consumption_llm_total)", "measured_energy_joules");
   ("Estimated from Duration (total_duration)", "estimated_energy_joules")].

Definition unit_options : list (string * string) :=
  [("Joules (J)", "raw");
   ("Kilowatt-hours (kWh)", "kwh");
   ("CO₂ Emissions (kg)", "co2");
   ("50W Lightbulb Hours", "bulb")].

Definition df_filtered := Views.df_filtered.

(** [df_filtered["base_energy"] = df_filtered[selected_energy_column]] *)
Definition base_energy (selected_energy_column : string)
    (df_filtered : DataFrame) : result DataFrame :=
  s ← getcol selected_energy_column df_filtered;
  Ok (setcol "base_energy" s df_filtered).

(** The unit conversion: the [if]/[elif]/[else] chain on the unit token. *)
Definition display_energy (selected_unit_type : string)
    (df_filtered : DataFrame) : result DataFrame :=
  if decide (selected_unit_type = "kwh") then
    b ← getcol "base_energy" df_filtered;
    v ← sdiv b (qz 3600000);
    Ok (setcol "display_energy" v df_filtered)
  else if decide (selected_unit_type = "co2") then
    b ← getcol "base_energy" df_filtered;
    k ← sdiv b (qz 3600000);
    v ← smul k (Q2Qc (475 # 1000));
    Ok (setcol "display_energy" v df_filtered)
  else if decide (selected_unit_type = "bulb") then
    b ← getcol "base_energy" df_filtered;
    v ← sdiv b (qz (50 * 3600));
    Ok (setcol "display_energy" v df_filtered)
  else
    b ← getcol "base_energy" df_filtered;
    Ok (setcol "display_energy" b df_filtered).

Definition total_val := Views.total_val "display_energy".
Definition hourly_model := Views.hourly_model "display_energy".
Definition cross_data := Views.cross_data "display_energy".
Definition avg_hourly := Views.avg_hourly "display_energy".

Definition forecast_df (df_filtered : DataFrame)
    : result (list (list cell * option Qc)) :=
  avg_hourly ← avg_hourly df_filtered;
  Ok (sort_values_desc snd (series_mul (series_mul avg_hourly (qz 24)) (qz 7))).

Definition pivot := Views.pivot "display_energy".

Definition fig_tokens :=
  Views.scatter "response_token_length" "display_energy" "model_name".

Definition complexity_cols : list string :=
  ["prompt_token_length"; "response_token_length"; "avg_sentence_length";
   "lexical_diversity"].


Definition fig_complexity (selected_complexity color_by : string) :=
  Views.scatter selected_complexity "display_energy" color_by.

End Scaled.

(** ** Row-wise reading of the scripts

    The scripts compute whole columns; the definitions below say what the
    same computation does to a single row. They are the vocabulary of the
    statements that follow. *)

Module Rowwise.
Import Pandas.
Open Scope string_scope.

(** Row-wise reading of the column operations: [e r] is the cell an
    expression over columns has in row [r]. *)
Definition cellwise (e : gmap string cell → result cell)
    (l : list (gmap string cell)) (s : Series) : Prop :=
  Forall2 (λ r y, e r = Ok y) l s.

Definition row_set (c : string) (e : gmap string cell → result cell)
    (r : gmap string cell) : result (gmap string cell) :=
  y ← e r; Ok (<[c:=y]> r).

Definition rowwise (f : gmap string cell → result (gmap string cell))
    (l l' : list (gmap string cell)) : Prop :=
  Forall2 (λ r r', f r = Ok r') l l'.

(** What [Final.load_data] does to one row. *)
Definition derive_final (r : gmap string cell) : result (gmap string cell) :=
  r ← row_set "hour"
        (λ r, dt (λ t, Timestamp (floor_H t)) (at_col "created_at" r)) r;
  r ← row_set "weekday"
        (λ r, dt (λ t, Str (day_name t)) (at_col "created_at" r)) r;
  r ← row_set "energy_joules"
        (λ r, cell_div (qz 1000000000) (at_col "total_duration" r)) r;
  r ← row_set "energy_kwh"
        (λ r, cell_div (qz 3600000) (at_col "energy_joules" r)) r;
  r ← row_set "co2_kg"
        (λ r, cell_mul (Q2Qc (475 # 1000)) (at_col "energy_kwh" r)) r;
  row_set "lightbulb_hours"
        (λ r, cell_div (qz (50 * 3600)) (at_col "energy_joules" r)) r.

(** What [Scaled.load_data] does to one row. *)
Definition derive_scaled (parse_float : string → option Qc)
    (r : gmap string cell) : result (gmap string cell) :=
  r ← row_set "hour"
        (λ r, dt (λ t, Timestamp (floor_H t)) (at_col "created_at" r)) r;
  r ← row_set "weekday"
        (λ r, dt (λ t, Str (day_name t)) (at_col "created_at" r)) r;
  r ← row_set "measured_energy_joules"
        (λ r, cell_mul (qz Scaled.scale_factor)
                (cell_to_numeric parse_float
                   (at_col "energy_consumption_llm_total" r))) r;
  r ← row_set "estimated_energy_joules"
        (λ r, cell_div (qz 1000000000) (at_col "total_duration" r)) r;
  r ← row_set "final_energy_joules"
        (λ r, Ok (cell_fillna (at_col "measured_energy_joules" r)
                              (at_col "estimated_energy_joules" r))) r;
  r ← row_set "energy_kwh"
        (λ r, cell_div (qz 3600000) (at_col "final_energy_joules" r)) r;
  r ← row_set "co2_kg"
        (λ r, cell_mul (Q2Qc (475 # 1000)) (at_col "energy_kwh" r)) r;
  row_set "lightbulb_hours"
        (λ r, cell_div (qz (50 * 3600)) (at_col "final_energy_joules" r)) r.

(** The columns each loader writes. *)
Definition final_derived : list string :=
  ["hour"; "weekday"; "energy_joules"; "energy_kwh"; "co2_kg";
   "lightbulb_hours"].

Definition scaled_derived : list string :=
  ["hour"; "weekday"; "measured_energy_joules"; "estimated_energy_joules";
   "final_energy_joules"; "energy_kwh"; "co2_kg"; "lightbulb_hours"].

(** The rows the filter keeps for a selection of models and devices. *)
Definition selected (selected_models selected_devices : list cell)
    (r : gmap string cell) : Prop :=
  at_col "model_name" r ∈ selected_models ∧
  at_col "device" r ∈ selected_devices.

#[export] Instance selected_dec ms ds r : Decision (selected ms ds r).
Proof. unfold selected. apply _. Defined.

(** The key of a row for a grouping, the float a cell holds, the sum of a
    column over some rows, the rows of one group and the sum of the value
    column of a grouped view. *)
Definition key_of (on : list string) (r : gmap string cell) : list cell :=
  (λ c, at_col c r) <$> on.

Definition float_of (x : cell) : option Qc :=
  match x with Num q => Some q | _ => None end.

Definition sum_of (value : string) (l : list (gmap string cell)) : Qc :=
  fsum ((λ r, float_of (at_col value r)) <$> l).

Definition rows_with (on : list string) (k : list cell)
    (l : list (gmap string cell)) : list (gmap string cell) :=
  filter (λ r, key_of on r = k) l.

Definition view_total (g : list (list cell * Qc)) : Qc :=
  fsum ((λ p, Some p.2) <$> g).



(** The hour of day the heatmap computes for a row, the slot (hour of day,
    weekday) of a row and the sum of the value column over the rows of a
    slot. *)
Definition hour_of_day (r : gmap string cell) : cell :=
  match at_col "created_at" r with
  | Timestamp t => Num (qz (hour_of t))
  | _ => NaN
  end.

Definition slot (r : gmap string cell) : list cell :=
  [hour_of_day r; at_col "weekday" r].

Definition slot_sum (value : string) (a d : cell)
    (l : list (gmap string cell)) : Qc :=
  sum_of value (filter (λ r, slot r = [a; d]) l).

(** What the heatmap needs of a row of a loaded table: the weekday is the
    day name of the timestamp (both missing together) and the value is a
    float. *)
Definition loaded_row (value : string) (r : gmap string cell) : Prop :=
  dt (λ t, Str (day_name t)) (at_col "created_at" r)
    = Ok (at_col "weekday" r) ∧
  ∃ x, as_float (at_col value r) = Ok x.

#[export] Instance loaded_row_dec value r : Decision (loaded_row value r).
Proof.
  unfold loaded_row. apply and_dec; [apply _|].
  destruct (at_col value r) as [|s|q|t]; simpl.
  - left. by exists None.
  - right. by intros [x ?].
  - left. by exists (Some q).
  - right. by intros [x ?].
Defined.

(** The row is stamped on the weekday [d]. *)
Definition on_day (d : string) (r : gmap string cell) : Prop :=
  match at_col "created_at" r with
  | Timestamp t => day_name t = d
  | _ => False
  end.

#[export] Instance on_day_dec d r : Decision (on_day d r).
Proof. unfold on_day. destruct (at_col "created_at" r); apply _. Defined.

(** The sum over the groups [ks] of a quantity [f] of the group. *)
Definition gsum {K} (f : K → Qc) (ks : list K) : Qc :=
  fsum ((λ k, Some (f k)) <$> ks).

(** The sums of the value column over the heatmap slots. *)
Definition slot_groups (value : string) (l : list (gmap string cell))
    : list (list cell * Qc) :=
  groupby_sum (slot <$> l) (float_of <$> (at_col value <$> l)).

(** The kinds of cells a column of timestamps and a column of numbers may
    hold, and the input rows a loader accepts. *)
Definition is_time (x : cell) : Prop :=
  match x with NaN | Timestamp _ => True | _ => False end.

Definition is_num (x : cell) : Prop :=
  match x with NaN | Num _ => True | _ => False end.

#[export] Instance is_time_dec x : Decision (is_time x).
Proof. destruct x; apply _. Defined.
#[export] Instance is_num_dec x : Decision (is_num x).
Proof. destruct x; apply _. Defined.

Definition loadable_row (r : gmap string cell) : Prop :=
  is_time (at_col "created_at" r) ∧ is_num (at_col "total_duration" r).

#[export] Instance loadable_row_dec r : Decision (loadable_row r).
Proof. unfold loadable_row. apply _. Defined.


(** What the unit conversion of the second script does to the base energy
    of one row. *)
Definition convert (selected_unit_type : string) (x : cell) : result cell :=
  if decide (selected_unit_type = "kwh") then cell_div (qz 3600000) x
  else if decide (selected_unit_type = "co2") then
    k ← cell_div (qz 3600000) x; cell_mul (Q2Qc (475 # 1000)) k
  else if decide (selected_unit_type = "bulb") then
    cell_div (qz (50 * 3600)) x
  else Ok x.

End Rowwise.

(** ** Sample tables *)

Module Sample.
Import Pandas.
Open Scope string_scope.

(** A float parser for unsigned integer literals, standing in for the
    library's on the strings used below. *)
Fixpoint parse_digits_from (acc : Z) (s : string) : option Z :=
  match s with
  | EmptyString => Some acc
  | String a s' =>
      let n := Z.of_N (Ascii.N_of_ascii a) in
      if decide (48 ≤ n ≤ 57)%Z
      then parse_digits_from (10 * acc + (n - 48)) s'
      else None
  end.

Definition parse_digits (s : string) : option Qc :=
  match s with
  | EmptyString => None
  | _ => qz <$> parse_digits_from 0 s
  end.

Definition csv_columns : list string :=
  ["created_at"; "model_name"; "device"; "total_duration";
   "energy_consumption_llm_total"; "response_token_length"].

Definition csv_row (created_at model_name device total_duration raw : cell)
    : gmap string cell :=
  <["created_at" := created_at]>
    (<["model_name" := model_name]>
       (<["device" := device]>
          (<["total_duration" := total_duration]>
             (<["energy_consumption_llm_total" := raw]>
                (<["response_token_length" := Num (qz 12)]> ∅))))).

(** Four events: three of model A on gpu0 (two in the hour that starts at
    the epoch, one in the next hour) and one of model B without device on
    the next day. *)
Definition csv : DataFrame :=
  {| columns := csv_columns;
     rows :=
       [ csv_row (Timestamp 0) (Str "A") (Str "gpu0")
           (Num (qz 3600000000000)) NaN;
         csv_row (Timestamp 5) (Str "A") (Str "gpu0")
           (Num (qz 3600000000000)) (Str "2");
         csv_row (Timestamp ns_per_hour) (Str "A") (Str "gpu0")
           (Num (qz 3600000000000)) (Str "n/a");
         csv_row (Timestamp (ns_per_day + 2 * ns_per_hour)) (Str "B") NaN
           NaN (Num (qz 1)) ] |}.

(** The same file with a column that is already called [hour]. *)
Definition csv_with_hour : DataFrame :=
  {| columns := (csv_columns ++ ["hour"])%list;
     rows := (λ r, <["hour" := Str "noon"]> r) <$> rows csv |}.

(** One event at midnight of each of seven consecutive days. *)
Definition csv_week : DataFrame :=
  {| columns := csv_columns;
     rows :=
       (λ d : Z, csv_row (Timestamp (d * ns_per_day)) (Str "A") (Str "gpu0")
                   (Num (qz 3600000000000)) NaN)
         <$> [0; 1; 2; 3; 4; 5; 6] |}.

(** The value of a computation that does not raise ([d] otherwise). *)
Definition the {A} (d : A) (r : result A) : A :=
  match r with Ok a => a | Raise _ => d end.

Definition loaded_final : DataFrame := the csv (Final.load_data csv).
Definition loaded_scaled : DataFrame :=
  the csv (Scaled.load_data parse_digits csv).

(** Both models and the one device selected. *)
Definition filtered_final : DataFrame :=
  the csv (Final.df_filtered loaded_final [Str "A"; Str "B"] [Str "gpu0"]).

Definition filtered_scaled : DataFrame :=
  the csv (d ← Scaled.df_filtered loaded_scaled [Str "A"; Str "B"]
                 [Str "gpu0"];
           Scaled.base_energy "final_energy_joules" d).



(** The week table, loaded and filtered, and the loaded sample table with
    no model selected. *)
Definition filtered_week : DataFrame :=
  the csv (df ← Final.load_data csv_week;
           Final.df_filtered df [Str "A"] [Str "gpu0"]).

Definition filtered_none : DataFrame :=
  the csv (Final.df_filtered loaded_final [] [Str "gpu0"]).

End Sample.

(** * Properties *)

Import Pandas Rowwise.
Open Scope string_scope.

(** ** Exceptions and element-wise operations *)

Lemma bind_Ok {A B} (m : result A) (f : A → result B) (b : B) :
  m ≫= f = Ok b ↔ ∃ a, m = Ok a ∧ f a = Ok b.
Proof.
  destruct m as [a|e]; simpl; split.
  - eauto.
  - by intros (a' & [= ->] & ?).
  - discriminate.
  - by intros (a' & ? & ?).
Qed.

(** Closed decidable facts are settled by evaluation. *)
Ltac by_compute := apply (bool_decide_unpack _); vm_compute; exact I.

Ltac inv_bind H :=
  repeat match type of H with
  | _ ≫= _ = Ok _ =>
      let x := fresh "x" in
      let Hx := fresh "H" x in
      apply bind_Ok in H as (x & Hx & H)
  | Ok _ = Ok _ => injection H as H
  | mret _ = Ok _ => injection H as H
  end.

Lemma mapM_Ok {A B} (f : A → result B) (l : list A) (k : list B) :
  mapM f l = Ok k ↔ Forall2 (λ x y, f x = Ok y) l k.
Proof.
  revert k. induction l as [|x l IH]; intros k; simpl.
  - split.
    + intros [= <-]. constructor.
    + by intros ->%Forall2_nil_inv_l.
  - split.
    + intros H. inv_bind H. subst k. constructor; [done|]. by apply IH.
    + intros (y & k' & Hy & Hk & ->)%Forall2_cons_inv_l.
      rewrite Hy. simpl. apply IH in Hk. rewrite Hk. done.
Qed.

Lemma bind_Ok_l {A B} (a : A) (f : A → result B) : Ok a ≫= f = f a.
Proof. done. Qed.

Lemma getcol_intro c df :
  c ∈ columns df → getcol c df = Ok (at_col c <$> rows df).
Proof. intros. unfold getcol. by rewrite decide_True. Qed.

Lemma getcol_Ok c df s :
  getcol c df = Ok s ↔ c ∈ columns df ∧ s = at_col c <$> rows df.
Proof.
  unfold getcol. case_decide; split.
  - by intros [= <-].
  - by intros [_ ->].
  - discriminate.
  - by intros [? _].
Qed.

Lemma cellwise_getcol c df s :
  getcol c df = Ok s → cellwise (λ r, Ok (at_col c r)) (rows df) s.
Proof.
  intros [_ ->]%getcol_Ok. unfold cellwise.
  apply Forall2_fmap_r, Forall_Forall2_diag, Forall_forall. done.
Qed.

Lemma cellwise_mapM e g l s v :
  cellwise e l s → mapM g s = Ok v → cellwise (λ r, e r ≫= g) l v.
Proof.
  unfold cellwise. intros Hs Hv%mapM_Ok. revert v Hv.
  induction Hs as [|r x l s Hx _ IH]; intros v Hv.
  - apply Forall2_nil_inv_l in Hv as ->. constructor.
  - apply Forall2_cons_inv_l in Hv as (y & v' & Hy & Hv & ->).
    constructor; [|by apply IH]. by rewrite Hx.
Qed.

Lemma cellwise_fmap e (h : cell → cell) l s :
  cellwise e l s → cellwise (λ r, x ← e r; Ok (h x)) l (h <$> s).
Proof.
  unfold cellwise. induction 1 as [|r x l s Hx _ IH]; simpl.
  - constructor.
  - constructor; [|done]. by rewrite Hx.
Qed.

Lemma cellwise_zip_with e1 e2 (h : cell → cell → cell) l s1 s2 :
  cellwise e1 l s1 → cellwise e2 l s2 →
  cellwise (λ r, x ← e1 r; y ← e2 r; Ok (h x y)) l (zip_with h s1 s2).
Proof.
  unfold cellwise. intros H1. revert s2.
  induction H1 as [|r x l s1 Hx _ IH]; intros s2 H2.
  - apply Forall2_nil_inv_l in H2 as ->. constructor.
  - apply Forall2_cons_inv_l in H2 as (y & s2' & Hy & H2 & ->).
    simpl. constructor; [|by apply IH]. by rewrite Hx, Hy.
Qed.

Lemma rowwise_setcol c e df s :
  cellwise e (rows df) s → rowwise (row_set c e) (rows df) (rows (setcol c s df)).
Proof.
  unfold cellwise, rowwise, setcol. simpl.
  induction 1 as [|r y l s Hy _ IH]; simpl.
  - constructor.
  - constructor; [|done]. unfold row_set. by rewrite Hy.
Qed.

Lemma rowwise_compose f g l1 l2 l3 :
  rowwise f l1 l2 → rowwise g l2 l3 → rowwise (λ r, f r ≫= g) l1 l3.
Proof.
  unfold rowwise. intros H12. revert l3.
  induction H12 as [|a b l1 l2 Hab _ IH]; intros l3 H23.
  - apply Forall2_nil_inv_l in H23 as ->. constructor.
  - apply Forall2_cons_inv_l in H23 as (c & l3' & Hbc & H23 & ->).
    constructor; [|by apply IH]. by rewrite Hab.
Qed.

Lemma rowwise_elem_of f l l' r' :
  rowwise f l l' → r' ∈ l' → ∃ r, r ∈ l ∧ f r = Ok r'.
Proof.
  intros H (i & Hi)%list_elem_of_lookup.
  destruct (Forall2_lookup_r _ _ _ _ _ H Hi) as (r & Hr & Hf).
  exists r. split; [|done]. apply list_elem_of_lookup. eauto.
Qed.

Lemma rowwise_length f l l' : rowwise f l l' → length l' = length l.
Proof. intros H. symmetry. by eapply Forall2_length. Qed.

(** One statement of the loader: a column is read, transformed cell by
    cell, and stored. *)
Lemma rowwise_assign c a g df s v :
  getcol a df = Ok s → mapM g s = Ok v →
  rowwise (row_set c (λ r, g (at_col a r))) (rows df) (rows (setcol c v df)).
Proof.
  intros Hs Hv. apply rowwise_setcol.
  exact (cellwise_mapM _ _ _ _ _ (cellwise_getcol _ _ _ Hs) Hv).
Qed.

Lemma columns_setcol_prefix c s df :
  columns df `prefix_of` columns (setcol c s df).
Proof.
  unfold setcol. simpl. case_decide; [done|]. by apply prefix_app_r.
Qed.

Lemma columns_setcol_elem_of c s df x :
  x ∈ columns (setcol c s df) ↔ x = c ∨ x ∈ columns df.
Proof.
  unfold setcol. simpl. case_decide.
  - split; [auto|]. by intros [->|?].
  - rewrite elem_of_app, list_elem_of_singleton. tauto.
Qed.

(** ** The loaders, row by row *)

Ltac chain_rowwise :=
  repeat first
    [ eapply rowwise_compose;
      [ eapply rowwise_assign; [eassumption | eassumption] | ]
    | eapply rowwise_assign; [eassumption | eassumption] ].

Lemma final_load_data_rowwise df df' :
  Final.load_data df = Ok df' →
  rowwise derive_final (rows df) (rows df') ∧
  columns df `prefix_of` columns df'.
Proof.
  unfold Final.load_data. intros H. inv_bind H. subst df'. split.
  - unfold derive_final, smul, sdiv, dt_floor_H, dt_day_name in *.
    chain_rowwise.
  - repeat (etrans; [|apply columns_setcol_prefix]). done.
Qed.

Lemma rowwise_assign_fmap c a (h : cell → cell) g df s v :
  getcol a df = Ok s → mapM g (h <$> s) = Ok v →
  rowwise (row_set c (λ r, g (h (at_col a r)))) (rows df)
          (rows (setcol c v df)).
Proof.
  intros Hs Hv. apply rowwise_setcol.
  exact (cellwise_mapM _ _ _ _ _
           (cellwise_fmap _ h _ _ (cellwise_getcol _ _ _ Hs)) Hv).
Qed.

Lemma rowwise_assign_zip c a b (h : cell → cell → cell) df s1 s2 :
  getcol a df = Ok s1 → getcol b df = Ok s2 →
  rowwise (row_set c (λ r, Ok (h (at_col a r) (at_col b r)))) (rows df)
          (rows (setcol c (zip_with h s1 s2) df)).
Proof.
  intros H1 H2. apply rowwise_setcol.
  exact (cellwise_zip_with _ _ h _ _ _
           (cellwise_getcol _ _ _ H1) (cellwise_getcol _ _ _ H2)).
Qed.

Ltac chain_rowwise_step :=
  first
    [ eapply rowwise_assign; [eassumption | eassumption]
    | eapply rowwise_assign_fmap; [eassumption | eassumption]
    | eapply rowwise_assign_zip; [eassumption | eassumption] ].

Lemma scaled_load_data_rowwise parse_float df df' :
  Scaled.load_data parse_float df = Ok df' →
  rowwise (derive_scaled parse_float) (rows df) (rows df') ∧
  columns df `prefix_of` columns df'.
Proof.
  unfold Scaled.load_data. intros H. inv_bind H. subst df'. split.
  - unfold derive_scaled, smul, sdiv, dt_floor_H, dt_day_name, to_numeric,
      fillna in *.
    repeat first
      [ eapply rowwise_compose; [chain_rowwise_step|] | chain_rowwise_step ].
  - repeat (etrans; [|apply columns_setcol_prefix]). done.
Qed.

Lemma at_col_insert c d v r :
  at_col c (<[d:=v]> r) = if decide (d = c) then v else at_col c r.
Proof. unfold at_col. rewrite lookup_insert. by case_decide. Qed.

Lemma at_col_insert_eq c v r : at_col c (<[c:=v]> r) = v.
Proof. unfold at_col. by rewrite lookup_insert_eq. Qed.

Lemma at_col_insert_ne c d v r :
  d ≠ c → at_col c (<[d:=v]> r) = at_col c r.
Proof. intros. unfold at_col. by rewrite lookup_insert_ne. Qed.

Ltac at_col_inserts :=
  repeat first
    [ rewrite at_col_insert_eq
    | rewrite at_col_insert_ne by by_compute ].

Ltac inv_derive H :=
  unfold row_set in H; inv_bind H;
  repeat match goal with
  | H' : _ ≫= _ = Ok _ |- _ => inv_bind H'
  end;
  subst;
  repeat match goal with
  | H : context [at_col _ (<[_:=_]> _)] |- _ =>
      rewrite at_col_insert in H; simpl in H
  end.

Lemma derive_final_frame r r' c :
  derive_final r = Ok r' → c ∉ final_derived → r' !! c = r !! c.
Proof.
  unfold derive_final, final_derived. intros H Hc. inv_derive H.
  repeat (rewrite lookup_insert_ne; [|set_solver]). done.
Qed.

Lemma derive_scaled_frame parse_float r r' c :
  derive_scaled parse_float r = Ok r' → c ∉ scaled_derived →
  r' !! c = r !! c.
Proof.
  unfold derive_scaled, scaled_derived. intros H Hc. inv_derive H.
  repeat (rewrite lookup_insert_ne; [|set_solver]). done.
Qed.

Lemma derive_scaled_cells parse_float r r' :
  derive_scaled parse_float r = Ok r' →
  dt (λ t, Timestamp (floor_H t)) (at_col "created_at" r')
    = Ok (at_col "hour" r') ∧
  dt (λ t, Str (day_name t)) (at_col "created_at" r')
    = Ok (at_col "weekday" r') ∧
  cell_mul (qz Scaled.scale_factor)
    (cell_to_numeric parse_float (at_col "energy_consumption_llm_total" r'))
    = Ok (at_col "measured_energy_joules" r') ∧
  cell_div (qz 1000000000) (at_col "total_duration" r')
    = Ok (at_col "estimated_energy_joules" r') ∧
  at_col "final_energy_joules" r'
    = cell_fillna (at_col "measured_energy_joules" r')
                  (at_col "estimated_energy_joules" r') ∧
  cell_div (qz 3600000) (at_col "final_energy_joules" r')
    = Ok (at_col "energy_kwh" r') ∧
  cell_mul (Q2Qc (475 # 1000)) (at_col "energy_kwh" r')
    = Ok (at_col "co2_kg" r') ∧
  cell_div (qz (50 * 3600)) (at_col "final_energy_joules" r')
    = Ok (at_col "lightbulb_hours" r').
Proof.
  unfold derive_scaled. intros H. inv_derive H.
  at_col_inserts. repeat split; congruence.
Qed.

Lemma derive_final_cells r r' :
  derive_final r = Ok r' →
  dt (λ t, Timestamp (floor_H t)) (at_col "created_at" r')
    = Ok (at_col "hour" r') ∧
  dt (λ t, Str (day_name t)) (at_col "created_at" r')
    = Ok (at_col "weekday" r') ∧
  cell_div (qz 1000000000) (at_col "total_duration" r')
    = Ok (at_col "energy_joules" r') ∧
  cell_div (qz 3600000) (at_col "energy_joules" r')
    = Ok (at_col "energy_kwh" r') ∧
  cell_mul (Q2Qc (475 # 1000)) (at_col "energy_kwh" r')
    = Ok (at_col "co2_kg" r') ∧
  cell_div (qz (50 * 3600)) (at_col "energy_joules" r')
    = Ok (at_col "lightbulb_hours" r').
Proof.
  unfold derive_final. intros H. inv_derive H.
  at_col_inserts. repeat split; congruence.
Qed.

Lemma rowwise_lookup f l l' i r' :
  rowwise f l l' → l' !! i = Some r' → ∃ r, l !! i = Some r ∧ f r = Ok r'.
Proof. intros H Hi. exact (Forall2_lookup_r _ _ _ _ _ H Hi). Qed.

(** ** The derived energy columns *)





(** The sample row: 3.6e12 ns last 3600 s, counted as 3600 J, that is
    0.001 kWh. *)
Example sample_row_energy :
  let r' := default ∅ (rows Sample.loaded_scaled !! 0%nat) in
  at_col "estimated_energy_joules" r' = Num (qz 3600) ∧
  at_col "final_energy_joules" r' = Num (qz 3600) ∧
  at_col "energy_kwh" r' = Num (Q2Qc (1 # 1000)) ∧
  at_col "lightbulb_hours" r' = Num (Q2Qc (1 # 50)).
Proof. cbv zeta. by_compute. Qed.

(** ** What the loader leaves alone *)

Lemma setcol_columns_inv c s df x :
  x ∈ columns (setcol c s df) → x ∈ columns df ∨ x = c.
Proof. rewrite columns_setcol_elem_of. tauto. Qed.

Lemma final_load_data_columns df df' c :
  Final.load_data df = Ok df' → c ∈ columns df' →
  c ∈ columns df ∨ c ∈ final_derived.
Proof.
  unfold Final.load_data, final_derived. intros H Hc. inv_bind H. subst df'.
  repeat (apply setcol_columns_inv in Hc as [Hc| ->]; [|set_solver]).
  by left.
Qed.

Lemma scaled_load_data_columns parse_float df df' c :
  Scaled.load_data parse_float df = Ok df' → c ∈ columns df' →
  c ∈ columns df ∨ c ∈ scaled_derived.
Proof.
  unfold Scaled.load_data, scaled_derived. intros H Hc. inv_bind H.
  subst df'.
  repeat (apply setcol_columns_inv in Hc as [Hc| ->]; [|set_solver]).
  by left.
Qed.

(** C10, as the code has it. Each loader keeps the columns of its input in
    place and appends only columns it derives, keeps the number of rows,
    and leaves every cell of a column it does not derive unchanged. The
    derived columns hold the derived values (for the hour and the weekday
    below, for the energy columns in C1 and C6), also when the input
    already has a column of that name: such a column is overwritten. *)
Theorem load_data_frame :
  (∀ df df',
     Final.load_data df = Ok df' →
     columns df `prefix_of` columns df' ∧
     (∀ c, c ∈ columns df' → c ∈ columns df ∨ c ∈ final_derived) ∧
     length (rows df') = length (rows df) ∧
     ∀ i r r',
       rows df !! i = Some r → rows df' !! i = Some r' →
       (∀ c, c ∉ final_derived → r' !! c = r !! c) ∧
       dt (λ t, Timestamp (floor_H t)) (at_col "created_at" r)
         = Ok (at_col "hour" r') ∧
       dt (λ t, Str (day_name t)) (at_col "created_at" r)
         = Ok (at_col "weekday" r')) ∧
  (∀ parse_float df df',
     Scaled.load_data parse_float df = Ok df' →
     columns df `prefix_of` columns df' ∧
     (∀ c, c ∈ columns df' → c ∈ columns df ∨ c ∈ scaled_derived) ∧
     length (rows df') = length (rows df) ∧
     ∀ i r r',
       rows df !! i = Some r → rows df' !! i = Some r' →
       (∀ c, c ∉ scaled_derived → r' !! c = r !! c) ∧
       dt (λ t, Timestamp (floor_H t)) (at_col "created_at" r)
         = Ok (at_col "hour" r') ∧
       dt (λ t, Str (day_name t)) (at_col "created_at" r)
         = Ok (at_col "weekday" r')).
Proof.
  split.
  - intros df df' Hload.
    destruct (final_load_data_rowwise _ _ Hload) as [Hrows Hcols].
    split; [done|]. split; [intros c; by apply final_load_data_columns|].
    split; [by eapply rowwise_length|].
    intros i r r' Hr Hr'.
    destruct (rowwise_lookup _ _ _ _ _ Hrows Hr') as (r0 & Hr0 & Hd).
    assert (r0 = r) as -> by congruence.
    assert (Hframe : ∀ c, c ∉ final_derived → r' !! c = r !! c)
      by (intros c; by eapply derive_final_frame).
    split; [done|].
    destruct (derive_final_cells _ _ Hd) as (Hh & Hw & _).
    assert (at_col "created_at" r' = at_col "created_at" r) as <-; [|done].
    unfold at_col. rewrite Hframe; [done|]. by_compute.
  - intros parse_float df df' Hload.
    destruct (scaled_load_data_rowwise _ _ _ Hload) as [Hrows Hcols].
    split; [done|].
    split; [intros c; by eapply scaled_load_data_columns|].
    split; [by eapply rowwise_length|].
    intros i r r' Hr Hr'.
    destruct (rowwise_lookup _ _ _ _ _ Hrows Hr') as (r0 & Hr0 & Hd).
    assert (r0 = r) as -> by congruence.
    assert (Hframe : ∀ c, c ∉ scaled_derived → r' !! c = r !! c)
      by (intros c; by eapply derive_scaled_frame).
    split; [done|].
    destruct (derive_scaled_cells _ _ _ Hd) as (Hh & Hw & _).
    assert (at_col "created_at" r' = at_col "created_at" r) as <-; [|done].
    unfold at_col. rewrite Hframe; [done|]. by_compute.
Qed.

Lemma load_data_frame_witness :
  Final.load_data Sample.csv = Ok Sample.loaded_final ∧
  columns Sample.csv `prefix_of` columns Sample.loaded_final ∧
  length (rows Sample.loaded_final) = length (rows Sample.csv).
Proof.
  assert (Hload : Final.load_data Sample.csv = Ok Sample.loaded_final)
    by by_compute.
  destruct (proj1 load_data_frame _ _ Hload) as (Hp & _ & Hl & _).
  exact (conj Hload (conj Hp Hl)).
Defined.

(** C10 as stated does not hold: a source column called [hour] comes out
    of the loader with other values. *)
Lemma load_data_overwrites_clashing_column :
  ¬ (∀ df df' i r r' c,
       Final.load_data df = Ok df' → c ∈ columns df →
       rows df !! i = Some r → rows df' !! i = Some r' →
       r' !! c = r !! c).
Proof.
  intros H.
  pose (df' := Sample.the Sample.csv (Final.load_data Sample.csv_with_hour)).
  assert (Hload : Final.load_data Sample.csv_with_hour = Ok df')
    by by_compute.
  assert (Hin : "hour" ∈ columns Sample.csv_with_hour)
    by by_compute.
  assert (Hr : rows Sample.csv_with_hour !! 0%nat
               = Some (default ∅ (rows Sample.csv_with_hour !! 0%nat)))
    by by_compute.
  assert (Hr' : rows df' !! 0%nat = Some (default ∅ (rows df' !! 0%nat)))
    by by_compute.
  specialize (H _ _ _ _ _ _ Hload Hin Hr Hr').
  revert H. apply (bool_decide_unpack _). vm_compute. exact I.
Qed.

(** ** The filter *)

Lemma bool_index_rows ms ds (l : list (gmap string cell)) :
  fst <$> filter (λ p, p.2 = true)
            (zip l (zip_with andb
                      (isin (at_col "model_name" <$> l) ms)
                      (isin (at_col "device" <$> l) ds)))
  = filter (selected ms ds) l.
Proof.
  unfold isin. induction l as [|r l IH]; [done|].
  simpl. rewrite !filter_cons. simpl.
  destruct (decide (at_col "model_name" r ∈ ms)) as [Hm|Hm];
    destruct (decide (at_col "device" r ∈ ds)) as [Hd|Hd];
    rewrite ?(bool_decide_eq_true_2 _ Hm), ?(bool_decide_eq_false_2 _ Hm),
      ?(bool_decide_eq_true_2 _ Hd), ?(bool_decide_eq_false_2 _ Hd); simpl.
  - rewrite (decide_True (P := selected ms ds r)) by (by split).
    f_equal. exact IH.
  - rewrite (decide_False (P := selected ms ds r)) by (by intros [? ?]).
    exact IH.
  - rewrite (decide_False (P := selected ms ds r)) by (by intros [? ?]).
    exact IH.
  - rewrite (decide_False (P := selected ms ds r)) by (by intros [? ?]).
    exact IH.
Qed.

Lemma df_filtered_Ok df ms ds dff :
  Views.df_filtered df ms ds = Ok dff ↔
  "model_name" ∈ columns df ∧ "device" ∈ columns df ∧
  dff = {| columns := columns df; rows := filter (selected ms ds) (rows df) |}.
Proof.
  unfold Views.df_filtered. split.
  - intros H. inv_bind H.
    apply getcol_Ok in Hx as [Hm ->]. apply getcol_Ok in Hx0 as [Hd ->].
    split; [done|]. split; [done|]. subst dff. unfold bool_index.
    by rewrite bool_index_rows.
  - intros (Hm & Hd & ->). unfold getcol.
    rewrite !decide_True by done. simpl. unfold bool_index.
    by rewrite bool_index_rows.
Qed.

(** C8. Filtering a filtered table again with selections that contain the
    first ones returns the filtered table itself. *)
Theorem filter_idempotent_under_superset
    (df dff : DataFrame) (ms1 ds1 ms2 ds2 : list cell) :
  ms1 ⊆ ms2 → ds1 ⊆ ds2 →
  Views.df_filtered df ms1 ds1 = Ok dff →
  Views.df_filtered dff ms2 ds2 = Ok dff.
Proof.
  intros Hms Hds (Hm & Hd & ->)%df_filtered_Ok.
  apply df_filtered_Ok. simpl. split; [done|]. split; [done|]. f_equal.
  symmetry. apply list_filter_filter_r.
  intros r [Hr1 Hr2]. split; [by apply Hms | by apply Hds].
Qed.

Lemma filter_idempotent_under_superset_witness :
  let dff := Sample.the Sample.csv
               (Views.df_filtered Sample.loaded_final [Str "A"] [Str "gpu0"]) in
  [Str "A"] ⊆ [Str "A"; Str "B"] ∧
  [Str "gpu0"] ⊆ [Str "gpu0"; Str "gpu1"] ∧
  Views.df_filtered Sample.loaded_final [Str "A"] [Str "gpu0"] = Ok dff ∧
  Views.df_filtered dff [Str "A"; Str "B"] [Str "gpu0"; Str "gpu1"] = Ok dff.
Proof.
  intros dff.
  assert (H1 : [Str "A"] ⊆ [Str "A"; Str "B"]) by by_compute.
  assert (H2 : [Str "gpu0"] ⊆ [Str "gpu0"; Str "gpu1"]) by by_compute.
  assert (H3 : Views.df_filtered Sample.loaded_final [Str "A"] [Str "gpu0"]
               = Ok dff) by by_compute.
  split; [exact H1|]. split; [exact H2|]. split; [exact H3|].
  exact (filter_idempotent_under_superset _ _ _ _ _ _ H1 H2 H3).
Defined.

Lemma elem_of_unique (s : Series) x : x ∈ unique s ↔ x ∈ s.
Proof.
  unfold unique. by rewrite elem_of_reverse, elem_of_remove_dups,
    elem_of_reverse.
Qed.

Lemma elem_of_dropna (s : Series) x : x ∈ dropna s ↔ x ≠ NaN ∧ x ∈ s.
Proof.
  unfold dropna. rewrite list_elem_of_filter.
  destruct x; simpl; intuition congruence.
Qed.

Lemma device_options_Ok df opts :
  Views.device_options df = Ok opts →
  ∀ x, x ∈ opts ↔ x ≠ NaN ∧ ∃ r, r ∈ rows df ∧ at_col "device" r = x.
Proof.
  unfold Views.device_options. intros H x. inv_bind H. subst opts.
  apply getcol_Ok in Hx0 as [_ ->].
  rewrite elem_of_unique, elem_of_dropna, list_elem_of_fmap.
  split; intros [? (r & ? & ?)]; eauto.
Qed.

Lemma model_options_Ok df opts :
  Views.model_options df = Ok opts →
  ∀ x, x ∈ opts ↔ ∃ r, r ∈ rows df ∧ at_col "model_name" r = x.
Proof.
  unfold Views.model_options. intros H x. inv_bind H. subst opts.
  apply getcol_Ok in Hx0 as [_ ->].
  rewrite elem_of_unique, list_elem_of_fmap.
  split; intros (r & ? & ?); eauto.
Qed.

Lemma filter_ext_elem_of {A} (P Q : A → Prop)
    `{∀ x, Decision (P x), ∀ x, Decision (Q x)} (l : list A) :
  (∀ x, x ∈ l → P x ↔ Q x) → filter P l = filter Q l.
Proof.
  induction l as [|x l IH]; intros HPQ; [done|].
  rewrite !filter_cons.
  assert (P x ↔ Q x) as Hx by (apply HPQ; left).
  rewrite IH by (intros y Hy; apply HPQ; by right).
  destruct (decide (P x)), (decide (Q x)); tauto.
Qed.

(** C9. The device options hold no missing value, so for every selection
    of devices among the options, and whatever the selected models, no row
    of the filtered table has a missing device; with the default selection
    of all options the filtered table is exactly the rows whose device is
    not missing. Every view is computed from the filtered table. *)
Theorem null_device_rows_excluded
    (df dff : DataFrame) (options selected_models selected_devices : list cell) :
  Views.device_options df = Ok options →
  selected_devices ⊆ options →
  Views.df_filtered df selected_models selected_devices = Ok dff →
  (∀ r, r ∈ rows dff → at_col "device" r ≠ NaN) ∧
  (∀ all_models,
     Views.model_options df = Ok all_models →
     selected_models = all_models → selected_devices = options →
     rows dff = filter (λ r, at_col "device" r ≠ NaN) (rows df)).
Proof.
  intros Hopts Hsub (Hm & Hd & ->)%df_filtered_Ok. simpl. split.
  - intros r [[_ Hr] _]%list_elem_of_filter.
    apply Hsub in Hr. by apply (device_options_Ok _ _ Hopts) in Hr as [? _].
  - intros all_models Hall -> ->. apply filter_ext_elem_of.
    intros r Hr. unfold selected.
    rewrite (model_options_Ok _ _ Hall), (device_options_Ok _ _ Hopts).
    split; [tauto|]. intros Hna. split; [|split]; eauto.
Qed.

Lemma null_device_rows_excluded_witness :
  let options := [Str "gpu0"] in
  let dff := Sample.the Sample.csv
               (Views.df_filtered Sample.loaded_final
                  [Str "A"; Str "B"] options) in
  Views.device_options Sample.loaded_final = Ok options ∧
  options ⊆ options ∧
  Views.df_filtered Sample.loaded_final [Str "A"; Str "B"] options = Ok dff ∧
  length (rows Sample.loaded_final) = 4%nat ∧
  length (rows dff) = 3%nat ∧
  ∀ r, r ∈ rows dff → at_col "device" r ≠ NaN.
Proof.
  intros options dff.
  assert (H1 : Views.device_options Sample.loaded_final = Ok options)
    by by_compute.
  assert (H2 : options ⊆ options) by done.
  assert (H3 : Views.df_filtered Sample.loaded_final [Str "A"; Str "B"]
                 options = Ok dff) by by_compute.
  split; [exact H1|]. split; [exact H2|]. split; [exact H3|].
  split; [by_compute|]. split; [by_compute|].
  exact (proj1 (null_device_rows_excluded _ _ _ _ _ H1 H2 H3)).
Defined.

(** ** The unit conversion *)

(** C5, as the code has it. The conversion has no failure for an unknown
    unit: every token other than [kwh], [co2] and [bulb], the token [raw]
    and any unknown one alike, takes the final [else] and passes the base
    energy through as [display_energy]. *)
Theorem display_energy_passes_other_units_through
    (selected_unit_type : string) (df_filtered : DataFrame) :
  selected_unit_type ∉ ["kwh"; "co2"; "bulb"] →
  "base_energy" ∈ columns df_filtered →
  ∃ df',
    Scaled.display_energy selected_unit_type df_filtered = Ok df' ∧
    df' = setcol "display_energy" (at_col "base_energy" <$> rows df_filtered)
            df_filtered ∧
    length (rows df') = length (rows df_filtered) ∧
    ∀ i r', rows df' !! i = Some r' →
            at_col "display_energy" r' = at_col "base_energy" r'.
Proof.
  intros Hunit Hbase. unfold Scaled.display_energy.
  rewrite !decide_False by set_solver.
  unfold getcol. rewrite decide_True by done. simpl.
  eexists. split; [done|]. split; [done|].
  assert (Hrw : rowwise (row_set "display_energy"
                           (λ r, Ok (at_col "base_energy" r)))
                  (rows df_filtered)
                  (rows (setcol "display_energy"
                           (at_col "base_energy" <$> rows df_filtered)
                           df_filtered))).
  { apply rowwise_setcol. apply (cellwise_getcol "base_energy" df_filtered).
    unfold getcol. by rewrite decide_True. }
  split; [by eapply rowwise_length|].
  intros i r' Hr'.
  destruct (rowwise_lookup _ _ _ _ _ Hrw Hr') as (r & _ & Hr).
  unfold row_set in Hr. simpl in Hr. injection Hr as <-.
  rewrite at_col_insert_eq. by rewrite at_col_insert_ne.
Qed.

Lemma display_energy_passes_other_units_through_witness :
  ("raw" ∉ ["kwh"; "co2"; "bulb"]) ∧
  "base_energy" ∈ columns Sample.filtered_scaled ∧
  ∃ df', Scaled.display_energy "raw" Sample.filtered_scaled = Ok df' ∧
         length (rows df') = length (rows Sample.filtered_scaled).
Proof.
  assert (H1 : "raw" ∉ ["kwh"; "co2"; "bulb"]) by by_compute.
  assert (H2 : "base_energy" ∈ columns Sample.filtered_scaled) by by_compute.
  split; [exact H1|]. split; [exact H2|].
  destruct (display_energy_passes_other_units_through _ _ H1 H2)
    as (df' & Hdf' & _ & Hlen & _).
  exact (ex_intro _ df' (conj Hdf' Hlen)).
Defined.

(** C5 as stated does not hold: the unknown token [joules] is converted
    like [raw], without error. *)
Lemma display_energy_accepts_unknown_unit :
  ¬ (∀ selected_unit_type df_filtered,
       selected_unit_type ∉ ["raw"; "kwh"; "co2"; "bulb"] →
       ∃ e, Scaled.display_energy selected_unit_type df_filtered = Raise e).
Proof.
  intros H.
  destruct (H "joules" Sample.filtered_scaled) as [e He]; [by_compute|].
  assert (Hok : Scaled.display_energy "joules" Sample.filtered_scaled
                = Scaled.display_energy "raw" Sample.filtered_scaled)
    by by_compute.
  assert (Hraw : ∃ df', Scaled.display_energy "raw" Sample.filtered_scaled
                        = Ok df').
  { exists (Sample.the Sample.csv
              (Scaled.display_energy "raw" Sample.filtered_scaled)).
    by_compute. }
  destruct Hraw as [df' Hdf']. congruence.
Qed.

(** ** Sums over groups *)

Lemma floats_Ok s v : floats s = Ok v → v = float_of <$> s.
Proof.
  unfold floats. intros H%mapM_Ok.
  induction H as [|x y s v Hxy _ IH]; [done|].
  simpl. rewrite IH. f_equal. by destruct x; simplify_eq/=.
Qed.

Lemma row_keys_Ok on df ks :
  row_keys on df = Ok ks → Forall (λ c, c ∈ columns df) on ∧
                           ks = key_of on <$> rows df.
Proof.
  unfold row_keys. intros H.
  destruct (filter (λ c, c ∉ columns df) on) as [|c l] eqn:Hf; [|done].
  injection H as <-. split; [|done].
  apply Forall_forall. intros c Hc.
  destruct (decide (c ∈ columns df)) as [|Hn]; [done|].
  assert (c ∈ filter (λ c, c ∉ columns df) on) as Hin
    by (by apply list_elem_of_filter).
  rewrite Hf in Hin. by apply elem_of_nil in Hin.
Qed.

Lemma group_of_fmap {A} on k (g : gmap string cell → A) l :
  group_of k (key_of on <$> l) (g <$> l) = g <$> rows_with on k l.
Proof.
  unfold group_of, rows_with. induction l as [|r l IH]; [done|].
  simpl. rewrite !filter_cons. simpl.
  destruct (decide (key_of on r = k)); simpl; [f_equal|]; exact IH.
Qed.

Lemma groupby_sum_of_Ok on value df g :
  Views.groupby_sum_of on value df = Ok g →
  g = (λ k, (k, sum_of value (rows_with on k (rows df))))
        <$> group_keys (key_of on <$> rows df).
Proof.
  unfold Views.groupby_sum_of. intros H. inv_bind H. subst g.
  apply row_keys_Ok in Hx as [_ ->]. apply getcol_Ok in Hx0 as [_ ->].
  apply floats_Ok in Hx1 as ->. unfold groupby_sum.
  apply list_fmap_ext. intros _ k _. f_equal.
  rewrite <- list_fmap_compose.
  by rewrite (group_of_fmap on k (float_of ∘ at_col value)).
Qed.

Lemma fsum_Permutation l1 l2 : l1 ≡ₚ l2 → fsum l1 = fsum l2.
Proof.
  unfold fsum. induction 1 as [|x l1 l2 _ IH|x y l|l1 l2 l3 _ IH1 _ IH2]; simpl.
  - done.
  - by rewrite IH.
  - ring.
  - by rewrite IH1.
Qed.

Lemma fsum_cons x l : fsum (x :: l) = (default 0 x + fsum l)%Qc.
Proof. done. Qed.

Lemma elem_of_group_keys ks k :
  k ∈ group_keys ks ↔ key_notna k ∧ k ∈ ks.
Proof.
  unfold group_keys.
  by rewrite merge_sort_Permutation, elem_of_remove_dups, list_elem_of_filter.
Qed.

Lemma NoDup_group_keys ks : NoDup (group_keys ks).
Proof.
  unfold group_keys. rewrite merge_sort_Permutation. apply NoDup_remove_dups.
Qed.

Lemma gsum_zero {K} (ks : list K) : gsum (λ _, 0%Qc) ks = 0%Qc.
Proof.
  unfold gsum. induction ks as [|k ks IH]; [done|].
  rewrite fmap_cons, fsum_cons, IH. simpl. ring.
Qed.

Lemma gsum_plus {K} (f g : K → Qc) ks :
  gsum (λ k, (f k + g k)%Qc) ks = (gsum f ks + gsum g ks)%Qc.
Proof.
  unfold gsum. induction ks as [|k ks IH].
  - unfold fsum. simpl. ring.
  - rewrite !fmap_cons, !fsum_cons, IH. simpl. ring.
Qed.

Lemma gsum_ext {K} (f g : K → Qc) ks :
  (∀ k, k ∈ ks → f k = g k) → gsum f ks = gsum g ks.
Proof.
  unfold gsum. intros Hfg. f_equal. apply list_fmap_ext.
  intros i k Hk. f_equal. apply Hfg. by eapply list_elem_of_lookup_2.
Qed.

Lemma gsum_indicator {K} `{EqDecision K} (k0 : K) v ks :
  NoDup ks → k0 ∈ ks →
  gsum (λ k, if decide (k0 = k) then v else 0%Qc) ks = v.
Proof.
  induction 1 as [|k ks Hk Hnd IH]; intros Hin.
  - by apply elem_of_nil in Hin.
  - unfold gsum. rewrite fmap_cons, fsum_cons. simpl.
    fold (gsum (λ k', if decide (k0 = k') then v else 0%Qc) ks).
    apply elem_of_cons in Hin as [->|Hin].
    + rewrite decide_True by done.
      rewrite (gsum_ext _ (λ _, 0%Qc)).
      * rewrite gsum_zero. ring.
      * intros k' Hk'. rewrite decide_False; [done|]. by intros ->.
    + rewrite decide_False by (by intros ->). rewrite IH by done. ring.
Qed.

Lemma sum_of_cons value r l :
  sum_of value (r :: l)
  = (default 0 (float_of (at_col value r)) + sum_of value l)%Qc.
Proof. done. Qed.

(** Grouping conserves the total: the group sums add up to the sum over
    all rows, when every row falls in a group. *)
Lemma sum_of_groups value on (ks : list (list cell)) l :
  NoDup ks → (∀ r, r ∈ l → key_of on r ∈ ks) →
  fsum ((λ k, Some (sum_of value (rows_with on k l))) <$> ks)
  = sum_of value l.
Proof.
  intros Hnd. induction l as [|r l IH]; intros Hin.
  - apply (gsum_zero ks).
  - rewrite sum_of_cons, <- IH by (intros; apply Hin; by right).
    rewrite <- (gsum_indicator (key_of on r)
                  (default 0%Qc (float_of (at_col value r))) ks Hnd)
      by (apply Hin; by left).
    etrans; [|apply gsum_plus]. apply gsum_ext. intros k _.
    unfold rows_with. rewrite filter_cons.
    destruct (decide (key_of on r = k)); [done|]. ring.
Qed.

Lemma row_keys_intro on df :
  Forall (λ c, c ∈ columns df) on →
  row_keys on df = Ok (key_of on <$> rows df).
Proof.
  intros Hon. unfold row_keys.
  assert (filter (λ c, c ∉ columns df) on = []) as ->; [|done].
  induction Hon as [|c on Hc _ IH]; [done|].
  rewrite filter_cons, decide_False by tauto. done.
Qed.

Lemma total_val_Ok value df t :
  Views.total_val value df = Ok t ↔
  value ∈ columns df ∧ (∃ v, floats (at_col value <$> rows df) = Ok v) ∧
  t = sum_of value (rows df).
Proof.
  unfold Views.total_val. split.
  - intros H. inv_bind H. apply getcol_Ok in Hx as [Hc ->].
    split; [done|]. split; [eauto|]. subst t.
    apply floats_Ok in Hx0 as ->. unfold sum_of.
    by rewrite <- list_fmap_compose.
  - intros (Hc & [v Hv] & ->). unfold getcol. rewrite decide_True by done.
    simpl. rewrite Hv. simpl. apply floats_Ok in Hv as ->.
    unfold sum_of. by rewrite <- list_fmap_compose.
Qed.

Lemma groupby_sum_of_intro on value df v :
  Forall (λ c, c ∈ columns df) on → value ∈ columns df →
  floats (at_col value <$> rows df) = Ok v →
  ∃ g, Views.groupby_sum_of on value df = Ok g.
Proof.
  intros Hon Hc Hv. unfold Views.groupby_sum_of.
  rewrite (row_keys_intro _ _ Hon). simpl.
  unfold getcol. rewrite decide_True by done. simpl. rewrite Hv. simpl.
  eauto.
Qed.

Lemma view_total_groupby_sum value on df g :
  Views.groupby_sum_of on value df = Ok g →
  (∀ r, r ∈ rows df → key_notna (key_of on r)) →
  view_total g = sum_of value (rows df).
Proof.
  intros ->%groupby_sum_of_Ok Hna. unfold view_total.
  rewrite <- list_fmap_compose.
  apply (sum_of_groups value on); [apply NoDup_group_keys|].
  intros r Hr. apply elem_of_group_keys. split; [by apply Hna|].
  by apply list_elem_of_fmap_2.
Qed.

(** ** Device totals *)

(** C7. For a table filtered by a selection of device options, the device
    totals of the first script add up to the total of the filtered
    table. *)
Theorem device_totals_conserve_total
    (selected_unit : string) (df dff : DataFrame)
    (options selected_models selected_devices : list cell) (t : Qc) :
  Final.device_options df = Ok options →
  selected_devices ⊆ options →
  Final.df_filtered df selected_models selected_devices = Ok dff →
  Final.total_val selected_unit dff = Ok t →
  ∃ g, Final.device_energy selected_unit dff = Ok g ∧ view_total g = t.
Proof.
  unfold Final.device_options, Final.df_filtered, Final.total_val,
    Final.device_energy, Views.device_energy.
  intros Hopts Hsub Hf Ht.
  assert (Hna : ∀ r, r ∈ rows dff → key_notna (key_of ["device"] r)).
  { intros r Hr. pose proof Hf as (_ & _ & ->)%df_filtered_Ok.
    apply list_elem_of_filter in Hr as [[_ Hd] _]. apply Hsub in Hd.
    apply (device_options_Ok _ _ Hopts) in Hd as [Hd _].
    unfold key_notna, key_of. simpl. by destruct (at_col "device" r). }
  assert (Hdev : "device" ∈ columns dff).
  { by pose proof Hf as (_ & ? & ->)%df_filtered_Ok. }
  apply total_val_Ok in Ht as (Hc & [v Hv] & ->).
  destruct (groupby_sum_of_intro ["device"] selected_unit dff v)
    as [g Hg]; [by repeat constructor|done|done|].
  rewrite Hg. simpl. eexists. split; [done|].
  rewrite <- (view_total_groupby_sum _ _ _ _ Hg Hna).
  unfold view_total, sort_values_desc. apply fsum_Permutation.
  apply fmap_Permutation, merge_sort_Permutation.
Qed.

(** The sample table: 7200 J in the first hour and 3600 J in the second
    for model A, 10800 J (0.003 kWh) for the device. *)
Example sample_views :
  Final.hourly_model "energy_joules" Sample.filtered_final
    = Ok [([Timestamp 0; Str "A"], qz 7200);
          ([Timestamp ns_per_hour; Str "A"], qz 3600)] ∧
  Final.device_energy "energy_joules" Sample.filtered_final
    = Ok [([Str "gpu0"], qz 10800)] ∧
  Final.device_energy "energy_kwh" Sample.filtered_final
    = Ok [([Str "gpu0"], Q2Qc (3 # 1000))].
Proof. by_compute. Qed.

Lemma device_totals_conserve_total_witness :
  Final.device_options Sample.loaded_final = Ok [Str "gpu0"] ∧
  [Str "gpu0"] ⊆ [Str "gpu0"] ∧
  Final.df_filtered Sample.loaded_final [Str "A"; Str "B"] [Str "gpu0"]
    = Ok Sample.filtered_final ∧
  Final.total_val "energy_joules" Sample.filtered_final = Ok (qz 10800) ∧
  ∃ g, Final.device_energy "energy_joules" Sample.filtered_final = Ok g ∧
       view_total g = qz 10800.
Proof.
  assert (H1 : Final.device_options Sample.loaded_final = Ok [Str "gpu0"])
    by by_compute.
  assert (H2 : [Str "gpu0"] ⊆ [Str "gpu0"]) by done.
  assert (H3 : Final.df_filtered Sample.loaded_final [Str "A"; Str "B"]
                 [Str "gpu0"] = Ok Sample.filtered_final) by by_compute.
  assert (H4 : Final.total_val "energy_joules" Sample.filtered_final
               = Ok (qz 10800)) by by_compute.
  split; [exact H1|]. split; [exact H2|]. split; [exact H3|].
  split; [exact H4|].
  exact (device_totals_conserve_total _ _ _ _ _ _ _ H1 H2 H3 H4).
Defined.

(** ** The forecast *)

Lemma assoc_fmap {A} (f : list cell → A) ks k :
  assoc k ((λ k, (k, f k)) <$> ks) = if decide (k ∈ ks) then Some (f k) else None.
Proof.
  unfold assoc. induction ks as [|k' ks IH].
  - by rewrite decide_False by apply not_elem_of_nil.
  - rewrite fmap_cons, filter_cons. simpl.
    destruct (decide (k' = k)) as [->|Hne].
    + simpl. rewrite decide_True by left. done.
    + rewrite IH. destruct (decide (k ∈ ks)) as [Hin|Hin].
      * rewrite decide_True by (by right). done.
      * rewrite decide_False; [done|].
        intros [->|?]%elem_of_cons; done.
Qed.

Lemma fst_fmap_pair {A} (f : list cell → A) (ks : list (list cell)) :
  fst <$> ((λ k, (k, f k)) <$> ks) = ks.
Proof.
  induction ks as [|k ks IH]; [done|].
  rewrite !fmap_cons. simpl. by rewrite IH.
Qed.









(** ** The heatmap pivot *)

Lemma group_of_fmap_key {A} (kf : gmap string cell → list cell) k
    (g : gmap string cell → A) l :
  group_of k (kf <$> l) (g <$> l) = g <$> filter (λ r, kf r = k) l.
Proof.
  unfold group_of. induction l as [|r l IH]; [done|].
  simpl. rewrite !filter_cons. simpl.
  destruct (decide (kf r = k)); simpl; [f_equal|]; exact IH.
Qed.

Lemma zip_with_fmap_same {A B C D} (h : B → C → D) (f : A → B) (g : A → C) l :
  zip_with h (f <$> l) (g <$> l) = (λ x, h (f x) (g x)) <$> l.
Proof. induction l as [|x l IH]; [done|]. simpl. f_equal. exact IH. Qed.

Lemma fmap_rowwise {A} f (F G : gmap string cell → A) l l' :
  rowwise f l l' → (∀ r r', f r = Ok r' → G r' = F r) → G <$> l' = F <$> l.
Proof.
  intros H HFG. induction H as [|r r' l l' Hr _ IH]; [done|].
  simpl. f_equal; [by apply HFG | exact IH].
Qed.

(** The rows of the heatmap's table after [hour_of_day] is added. *)
Lemma pivot_hour_of_day_rows (df : DataFrame) s hod value :
  value ≠ "hour_of_day" →
  getcol "created_at" df = Ok s → dt_hour s = Ok hod →
  let df' := setcol "hour_of_day" hod df in
  at_col "hour_of_day" <$> rows df' = hour_of_day <$> rows df ∧
  at_col "weekday" <$> rows df' = at_col "weekday" <$> rows df ∧
  at_col value <$> rows df' = at_col value <$> rows df.
Proof.
  intros Hv Hs Hhod df'.
  pose proof (rowwise_assign "hour_of_day" _ _ _ _ _ Hs Hhod) as Hrw.
  fold df' in Hrw.
  split; [|split]; apply (fmap_rowwise _ _ _ _ _ Hrw); intros r r' Hr;
    unfold row_set in Hr; inv_bind Hr; subst r'.
  - rewrite at_col_insert_eq. unfold hour_of_day.
    by destruct (at_col "created_at" r); simplify_eq/=.
  - by rewrite at_col_insert_ne.
  - by rewrite at_col_insert_ne.
Qed.

Lemma groupby_sum_slots value (l : list (gmap string cell)) :
  groupby_sum (slot <$> l) (float_of <$> (at_col value <$> l))
  = (λ k, (k, sum_of value (filter (λ r, slot r = k) l)))
      <$> group_keys (slot <$> l).
Proof.
  unfold groupby_sum. apply list_fmap_ext. intros _ k _. f_equal.
  rewrite <- list_fmap_compose.
  by rewrite (group_of_fmap_key slot k (float_of ∘ at_col value)).
Qed.

Lemma select_columns_Ok (g : list (list cell * Qc)) (z : Qc)
    (names : list cell) :
  Forall (λ n, n ∈ labels 1 g) names →
  select_columns names (pivot_fillna z (unstack g))
  = Ok {| index := labels 0 g; pcolumns := names;
          cells := (λ a, (λ n, Some (default z (assoc [a; n] g))) <$> names)
                     <$> labels 0 g |}.
Proof.
  intros Hnames. unfold select_columns. simpl.
  assert (filter (λ n, n ∉ labels 1 g) names = []) as ->.
  { induction Hnames as [|n names Hn _ IH]; [done|].
    rewrite filter_cons, decide_False by tauto. done. }
  f_equal. f_equal. rewrite <- !list_fmap_compose.
  apply list_fmap_ext. intros _ a _. simpl.
  apply list_fmap_ext. intros j' n Hj'.
  assert (n ∈ labels 1 g) as Hn.
  { by apply (Forall_lookup_1 _ _ _ _ Hnames Hj'). }
  destruct (list_find_elem_of (λ m, m = n) (labels 1 g) n Hn eq_refl)
    as [[j m] Hfind].
  rewrite Hfind. simpl.
  apply list_find_Some in Hfind as (Hj & -> & _).
  rewrite !list_lookup_fmap, Hj. done.
Qed.

Lemma select_columns_Raise (g : list (list cell * Qc)) (z : Qc)
    (names : list cell) :
  ¬ Forall (λ n, n ∈ labels 1 g) names →
  ∃ missing, select_columns names (pivot_fillna z (unstack g))
             = Raise (KeyError missing).
Proof.
  intros Hnames. unfold select_columns. simpl.
  destruct (filter (λ n, n ∉ labels 1 g) names) as [|n l] eqn:Hf; [|eauto].
  destruct Hnames. apply Forall_forall. intros n Hn.
  destruct (decide (n ∈ labels 1 g)) as [|Hnin]; [done|].
  assert (n ∈ filter (λ n, n ∉ labels 1 g) names) as Hin
    by (by apply list_elem_of_filter).
  rewrite Hf in Hin. by apply elem_of_nil in Hin.
Qed.

Lemma loaded_row_created_at value r :
  loaded_row value r →
  (at_col "created_at" r = NaN ∧ at_col "weekday" r = NaN) ∨
  (∃ t, at_col "created_at" r = Timestamp t ∧
        at_col "weekday" r = Str (day_name t)).
Proof.
  intros [Hdt _]. destruct (at_col "created_at" r); simplify_eq/=; eauto.
Qed.

Lemma loaded_row_slot value r :
  loaded_row value r →
  key_notna (slot r) ↔ ∃ t, at_col "created_at" r = Timestamp t.
Proof.
  intros Hr. unfold key_notna, slot, hour_of_day.
  destruct (loaded_row_created_at _ _ Hr) as [[-> ->]|(t & -> & ->)]; simpl.
  - split; [done|]. by intros [? ?].
  - split; [eauto|done].
Qed.

(** The heatmap of a table of loaded rows is the selection of the weekday
    columns from the zero-filled pivot of the slots. *)
Lemma pivot_eq value (df : DataFrame) :
  value ≠ "hour_of_day" →
  "created_at" ∈ columns df → "weekday" ∈ columns df → value ∈ columns df →
  (∀ r, r ∈ rows df → loaded_row value r) →
  Views.pivot value df
  = select_columns (Str <$> day_names)
      (pivot_fillna 0%Qc
         (pivot_table_sum (hour_of_day <$> rows df)
            (at_col "weekday" <$> rows df)
            (float_of <$> (at_col value <$> rows df)))).
Proof.
  intros Hv Hc Hw Hval Hrows. unfold Views.pivot.
  pose proof (getcol_intro _ _ Hc) as Hs.
  assert (Hhod : dt_hour (at_col "created_at" <$> rows df)
                 = Ok (hour_of_day <$> rows df)).
  { apply mapM_Ok. apply Forall2_fmap, Forall_Forall2_diag, Forall_forall.
    intros r Hr. unfold hour_of_day.
    by destruct (loaded_row_created_at _ _ (Hrows r Hr))
      as [[-> _]|(t & -> & _)]. }
  rewrite Hs, bind_Ok_l, Hhod, bind_Ok_l.
  destruct (pivot_hour_of_day_rows df _ _ value Hv Hs Hhod)
    as (Hi & Hcs & Hvs).
  rewrite !getcol_intro by (apply columns_setcol_elem_of; auto).
  rewrite !bind_Ok_l, Hi, Hcs, Hvs.
  assert (floats (at_col value <$> rows df)
          = Ok (float_of <$> (at_col value <$> rows df))) as ->; [|done].
  apply mapM_Ok. apply Forall2_fmap_r, Forall_Forall2_diag, Forall_forall.
  intros x (r & -> & Hr)%list_elem_of_fmap.
  destruct (Hrows r Hr) as [_ [y Hy]].
  by destruct (at_col value r); simplify_eq/=.
Qed.

Lemma filter_none {A} (P : A → Prop) `{∀ x, Decision (P x)} (l : list A) :
  (∀ x, x ∈ l → ¬ P x) → filter P l = [].
Proof.
  induction l as [|x l IH]; intros HP; [done|].
  rewrite filter_cons, decide_False by (apply HP; left).
  apply IH. intros y Hy. apply HP. by right.
Qed.

#[local] Instance cell_le_total : Total cell_le.
Proof.
  intros x y. unfold cell_le, cell_leb.
  destruct x as [|s|p|a], y as [|s'|q|b]; simpl; auto.
  - apply String.leb_total.
  - destruct (Qc_le_total p q); [left|right]; by apply bool_decide_eq_true_2.
  - rewrite !Z.leb_le. lia.
Qed.

Section Slots.
Variable value : string.
Variable l : list (gmap string cell).
Hypothesis Hrows : ∀ r, r ∈ l → loaded_row value r.

Lemma elem_of_slot_labels n x :
  x ∈ labels n (slot_groups value l) ↔
  ∃ r t, r ∈ l ∧ at_col "created_at" r = Timestamp t ∧
         default NaN (slot r !! n) = x.
Proof.
  unfold labels, slot_groups. rewrite groupby_sum_slots.
  rewrite merge_sort_Permutation, elem_of_remove_dups.
  rewrite <- list_fmap_compose, list_elem_of_fmap. simpl. split.
  - intros (k & -> & [Hna (r & -> & Hr)%list_elem_of_fmap]%elem_of_group_keys).
    apply (loaded_row_slot value r (Hrows r Hr)) in Hna as [t Ht]. eauto.
  - intros (r & t & Hr & Ht & <-). exists (slot r). split; [done|].
    apply elem_of_group_keys. split.
    + apply (loaded_row_slot value r (Hrows r Hr)). eauto.
    + by apply list_elem_of_fmap_2.
Qed.

Lemma slot_cell a d :
  a ≠ NaN → d ≠ NaN →
  default 0%Qc (assoc [a; d] (slot_groups value l)) = slot_sum value a d l.
Proof.
  intros Ha Hd. unfold slot_groups. rewrite groupby_sum_slots, assoc_fmap.
  case_decide as Hin; [done|]. simpl. unfold slot_sum.
  assert (filter (λ r, slot r = [a; d]) l = []) as ->; [|done].
  apply filter_none. intros r Hr Hslot. apply Hin.
  apply elem_of_group_keys. split.
  - unfold key_notna. simpl. by destruct a, d.
  - rewrite <- Hslot. by apply list_elem_of_fmap_2.
Qed.

Lemma slot_sum_absent a d :
  (∀ r, r ∈ l → slot r ≠ [a; d]) → slot_sum value a d l = 0%Qc.
Proof.
  intros Habs. unfold slot_sum. by rewrite filter_none.
Qed.
End Slots.

Lemma hour_label_bound (x : cell) :
  (∃ t, x = Num (qz (hour_of t))) → x ∈ (λ h, Num (qz h)) <$> seqZ 0 24.
Proof.
  intros [t ->]. apply list_elem_of_fmap. exists (hour_of t). split; [done|].
  apply elem_of_seqZ. unfold hour_of.
  pose proof (Z.mod_pos_bound (t / ns_per_hour) 24). lia.
Qed.

(** C3, as the code has it. For a table of loaded rows in which each of
    the seven weekdays occurs, the heatmap pivot exists, has exactly the
    columns Monday to Sunday in this order, and has one row for each hour
    of day that occurs in the table, in ascending order: at most 24 rows,
    not 24 in general. Each cell is the sum of the value column over the
    rows of its hour and weekday, which is 0 when there is no such row. *)
Theorem heatmap_pivot_shape (value : string) (dff : DataFrame) :
  value ≠ "hour_of_day" →
  "created_at" ∈ columns dff → "weekday" ∈ columns dff →
  value ∈ columns dff →
  (∀ r, r ∈ rows dff → loaded_row value r) →
  (∀ d, d ∈ day_names →
        ∃ r t, r ∈ rows dff ∧ at_col "created_at" r = Timestamp t ∧
               day_name t = d) →
  ∃ p,
    Views.pivot value dff = Ok p ∧
    pcolumns p = Str <$> day_names ∧
    (∀ x, x ∈ index p ↔
          ∃ r t, r ∈ rows dff ∧ at_col "created_at" r = Timestamp t ∧
                 x = Num (qz (hour_of t))) ∧
    NoDup (index p) ∧ Sorted cell_le (index p) ∧
    (length (index p) ≤ 24)%nat ∧
    cells p
    = (λ a, (λ d, Some (slot_sum value a (Str d) (rows dff))) <$> day_names)
        <$> index p ∧
    (∀ a d, (∀ r, r ∈ rows dff → slot r ≠ [a; Str d]) →
            slot_sum value a (Str d) (rows dff) = 0%Qc).
Proof.
  intros Hv Hc Hw Hval Hrows Hdays.
  set (l := rows dff).
  set (g := slot_groups value l).
  assert (Hnames : Forall (λ n, n ∈ labels 1 g) (Str <$> day_names)).
  { apply Forall_fmap, Forall_forall. intros d Hd. simpl.
    apply (elem_of_slot_labels value l Hrows 1).
    destruct (Hdays d Hd) as (r & t & Hr & Ht & <-). exists r, t.
    split; [done|]. split; [done|]. simpl.
    destruct (loaded_row_created_at _ _ (Hrows r Hr))
      as [[Hna _]|(t' & Ht' & ->)]; congruence. }
  pose proof (select_columns_Ok g 0%Qc _ Hnames) as Hsel.
  assert (Hindex : ∀ x,
    x ∈ labels 0 g ↔
    ∃ r t, r ∈ l ∧ at_col "created_at" r = Timestamp t ∧
           x = Num (qz (hour_of t))).
  { intros x. etrans; [apply (elem_of_slot_labels value l Hrows 0 x)|].
    split; intros (r & t & Hr & Ht & Hx); exists r, t;
      (split; [done|]); (split; [done|]);
      simpl in *; unfold hour_of_day in *; rewrite Ht in *; done. }
  eexists. split.
  { rewrite pivot_eq by done. unfold pivot_table_sum.
    rewrite zip_with_fmap_same. exact Hsel. }
  simpl. split; [done|]. split; [exact Hindex|].
  assert (Hnd : NoDup (labels 0 g)).
  { unfold labels. rewrite merge_sort_Permutation. apply NoDup_remove_dups. }
  split; [exact Hnd|]. split; [apply Sorted_merge_sort, _|].
  split.
  { etrans; [apply submseteq_length, NoDup_submseteq; [exact Hnd|]|].
    - intros x (r & t & _ & _ & ->)%Hindex. apply hour_label_bound. eauto.
    - by rewrite length_fmap, length_seqZ. }
  split; [|intros a d; apply slot_sum_absent].
  apply list_fmap_ext. intros i a Hi.
  assert (a ≠ NaN) as Ha.
  { apply list_elem_of_lookup_2, Hindex in Hi as (r & t & _ & _ & ->).
    done. }
  by rewrite !(slot_cell value l a) by done.
Qed.

(** When a weekday does not occur in the table, the selection of the
    seven weekday columns raises. *)
Lemma pivot_raises_when_weekday_missing (value : string) (dff : DataFrame) d :
  value ≠ "hour_of_day" →
  "created_at" ∈ columns dff → "weekday" ∈ columns dff →
  value ∈ columns dff →
  (∀ r, r ∈ rows dff → loaded_row value r) →
  d ∈ day_names → (∀ r, r ∈ rows dff → ¬ on_day d r) →
  ∃ missing, Views.pivot value dff = Raise (KeyError missing).
Proof.
  intros Hv Hc Hw Hval Hrows Hd Hnone.
  rewrite pivot_eq by done. unfold pivot_table_sum.
  rewrite zip_with_fmap_same.
  apply (select_columns_Raise (slot_groups value (rows dff))).
  intros Hall. rewrite Forall_fmap, Forall_forall in Hall.
  apply Hall in Hd. simpl in Hd.
  apply (elem_of_slot_labels value _ Hrows 1) in Hd
    as (r & t & Hr & Ht & Hday).
  apply (Hnone r Hr). unfold on_day. rewrite Ht.
  destruct (loaded_row_created_at _ _ (Hrows r Hr))
    as [[Hna _]|(t' & Ht' & Hwd)]; [congruence|].
  simpl in Hday. rewrite Hwd in Hday. congruence.
Qed.

(** ** Empty selections *)

Lemma df_filtered_no_models df ds dff :
  Views.df_filtered df [] ds = Ok dff → rows dff = [] ∧ columns dff = columns df.
Proof.
  intros (_ & _ & ->)%df_filtered_Ok. simpl. split; [|done].
  apply filter_none. intros r _ [Hm _]. by apply elem_of_nil in Hm.
Qed.

Lemma df_filtered_no_devices df ms dff :
  Views.df_filtered df ms [] = Ok dff → rows dff = [] ∧ columns dff = columns df.
Proof.
  intros (_ & _ & ->)%df_filtered_Ok. simpl. split; [|done].
  apply filter_none. intros r _ [_ Hd]. by apply elem_of_nil in Hd.
Qed.

Lemma groupby_sum_of_empty on value (df : DataFrame) :
  rows df = [] → Forall (λ c, c ∈ columns df) on → value ∈ columns df →
  Views.groupby_sum_of on value df = Ok [].
Proof.
  intros Hrows Hon Hv. unfold Views.groupby_sum_of.
  rewrite (row_keys_intro _ _ Hon), bind_Ok_l, (getcol_intro _ _ Hv),
    bind_Ok_l, Hrows.
  done.
Qed.

(** C2 on the code. On a filtered table without rows the heatmap raises a
    [KeyError]: the pivot of no rows has no weekday column, and the seven
    weekday columns are selected by name. The other views of the same
    table are empty, as the claim says. An empty selection of models or of
    devices gives such a table. *)
Theorem pivot_raises_on_empty_table (value : string) (dff : DataFrame) :
  rows dff = [] →
  "created_at" ∈ columns dff → "weekday" ∈ columns dff →
  "hour" ∈ columns dff → "model_name" ∈ columns dff →
  "device" ∈ columns dff → "response_token_length" ∈ columns dff →
  value ∈ columns dff →
  Views.pivot value dff = Raise (KeyError day_names) ∧
  Views.hourly_model value dff = Ok [] ∧
  Views.device_energy value dff = Ok [] ∧
  Views.cross_data value dff = Ok [] ∧
  Views.avg_hourly value dff = Ok [] ∧
  Final.forecast_df value dff = Ok [] ∧
  (value = "display_energy" → Scaled.forecast_df dff = Ok []) ∧
  Views.scatter "response_token_length" value "model_name" dff = Ok [].
Proof.
  intros Hrows Hc Hw Hh Hm Hd Ht Hv.
  assert (Havg : Views.avg_hourly value dff = Ok []).
  { unfold Views.avg_hourly.
    rewrite groupby_sum_of_empty; [|done| |done]; [|by repeat constructor].
    rewrite bind_Ok_l, row_keys_intro by (by repeat constructor).
    rewrite bind_Ok_l, (getcol_intro _ _ Hh), bind_Ok_l, Hrows. done. }
  split; [|split; [|split; [|split; [|split; [|split; [|split]]]]]].
  - unfold Views.pivot.
    rewrite (getcol_intro _ _ Hc), bind_Ok_l, Hrows. simpl.
    rewrite !getcol_intro by (apply columns_setcol_elem_of; auto).
    simpl. rewrite Hrows. done.
  - unfold Views.hourly_model.
    apply groupby_sum_of_empty; [done| |done]. by repeat constructor.
  - unfold Views.device_energy.
    rewrite groupby_sum_of_empty; [done|done| |done]. by repeat constructor.
  - unfold Views.cross_data.
    apply groupby_sum_of_empty; [done| |done]. by repeat constructor.
  - exact Havg.
  - unfold Final.forecast_df, Final.avg_hourly. by rewrite Havg.
  - intros ->. unfold Scaled.forecast_df, Scaled.avg_hourly. by rewrite Havg.
  - unfold Views.scatter.
    rewrite !getcol_intro, !bind_Ok_l, Hrows by done. done.
Qed.

Lemma pivot_raises_on_empty_table_witness :
  Final.df_filtered Sample.loaded_final [] [Str "gpu0"]
    = Ok Sample.filtered_none ∧
  rows Sample.filtered_none = [] ∧
  Final.pivot "energy_kwh" Sample.filtered_none = Raise (KeyError day_names) ∧
  Final.device_energy "energy_kwh" Sample.filtered_none = Ok [].
Proof.
  assert (H0 : Final.df_filtered Sample.loaded_final [] [Str "gpu0"]
               = Ok Sample.filtered_none) by by_compute.
  pose proof (proj1 (df_filtered_no_models _ _ _ H0)) as Hrows.
  split; [exact H0|]. split; [exact Hrows|].
  assert (Hcols : Forall (λ c, c ∈ columns Sample.filtered_none)
            ["created_at"; "weekday"; "hour"; "model_name"; "device";
             "response_token_length"; "energy_kwh"]) by by_compute.
  repeat (apply Forall_cons in Hcols as [? Hcols]).
  destruct (pivot_raises_on_empty_table "energy_kwh" Sample.filtered_none)
    as (Hp & _ & Hd & _); [assumption..|].
  exact (conj Hp Hd).
Defined.

Lemma days_present (l : list (gmap string cell)) :
  Forall (λ d, Exists (on_day d) l) day_names →
  ∀ d, d ∈ day_names →
       ∃ r t, r ∈ l ∧ at_col "created_at" r = Timestamp t ∧ day_name t = d.
Proof.
  intros Hall d Hd.
  apply (proj1 (Forall_forall _ _) Hall) in Hd.
  apply Exists_exists in Hd as (r & Hr & Hday). unfold on_day in Hday.
  destruct (at_col "created_at" r) as [| | |t] eqn:Ht; try done. eauto.
Qed.

Lemma heatmap_pivot_shape_witness :
  let dff := Sample.filtered_week in
  "energy_joules" ≠ "hour_of_day" ∧
  Forall (λ c, c ∈ columns dff) ["created_at"; "weekday"; "energy_joules"] ∧
  Forall (loaded_row "energy_joules") (rows dff) ∧
  Forall (λ d, Exists (on_day d) (rows dff)) day_names ∧
  ∃ p, Views.pivot "energy_joules" dff = Ok p ∧
       pcolumns p = Str <$> day_names ∧
       (length (index p) ≤ 24)%nat.
Proof.
  intros dff.
  assert (H1 : "energy_joules" ≠ "hour_of_day") by by_compute.
  assert (H2 : Forall (λ c, c ∈ columns dff)
                 ["created_at"; "weekday"; "energy_joules"]) by by_compute.
  assert (H3 : Forall (loaded_row "energy_joules") (rows dff)) by by_compute.
  assert (H4 : Forall (λ d, Exists (on_day d) (rows dff)) day_names)
    by by_compute.
  split; [exact H1|]. split; [exact H2|]. split; [exact H3|].
  split; [exact H4|].
  destruct (heatmap_pivot_shape "energy_joules" dff H1
              (Forall_inv H2) (Forall_inv (Forall_inv_tail H2))
              (Forall_inv (Forall_inv_tail (Forall_inv_tail H2)))
              (proj1 (Forall_forall _ _) H3) (days_present _ H4))
    as (p & Hp & Hcols & _ & _ & _ & Hlen & _).
  exact (ex_intro _ p (conj Hp (conj Hcols Hlen))).
Defined.

(** C3 as stated does not hold: a table with one event at midnight of each
    of the seven weekdays has a heatmap of one row, not 24. *)
Lemma heatmap_pivot_has_only_hours_present :
  ¬ (∀ value dff,
       rows dff ≠ [] →
       (∀ r, r ∈ rows dff → loaded_row value r) →
       ∃ p, Views.pivot value dff = Ok p ∧
            pcolumns p = Str <$> day_names ∧
            length (index p) = 24%nat ∧ length (cells p) = 24%nat).
Proof.
  intros H.
  destruct (H "energy_joules" Sample.filtered_week) as (p & Hp & _ & Hlen & _).
  - by_compute.
  - apply Forall_forall. by_compute.
  - assert (p = Sample.the (mkPivotTable [] [] [])
                  (Views.pivot "energy_joules" Sample.filtered_week)) as ->
      by (by rewrite Hp).
    revert Hlen. by_compute.
Qed.

(** ** The rows the scripts pass to the heatmap

    The rows of the tables the scripts build are loaded rows: a loaded
    table, filtered, and in the second script converted to the display
    unit. *)

Lemma cell_div_float k x y : cell_div k x = Ok y → ∃ f, as_float y = Ok f.
Proof. destruct x; intros; simplify_eq/=; eauto. Qed.

Lemma cell_mul_float k x y : cell_mul k x = Ok y → ∃ f, as_float y = Ok f.
Proof. destruct x; intros; simplify_eq/=; eauto. Qed.

Lemma cell_fillna_float x y :
  (∃ f, as_float x = Ok f) → (∃ f, as_float y = Ok f) →
  ∃ f, as_float (cell_fillna x y) = Ok f.
Proof. by destruct x. Qed.

Lemma final_load_data_has_columns df df' :
  Final.load_data df = Ok df' →
  Forall (λ c, c ∈ columns df') ("created_at" :: final_derived).
Proof.
  unfold Final.load_data, final_derived. intros H. inv_bind H. subst df'.
  apply getcol_Ok in Hx as [Hc _].
  repeat constructor; rewrite !columns_setcol_elem_of; auto 10.
Qed.

Lemma scaled_load_data_has_columns parse_float df df' :
  Scaled.load_data parse_float df = Ok df' →
  Forall (λ c, c ∈ columns df') ("created_at" :: scaled_derived).
Proof.
  unfold Scaled.load_data, scaled_derived. intros H. inv_bind H. subst df'.
  apply getcol_Ok in Hx as [Hc _].
  repeat constructor; rewrite !columns_setcol_elem_of; auto 12.
Qed.

Lemma final_pipeline_loaded_rows df0 df ms ds dff value :
  Final.load_data df0 = Ok df →
  Final.df_filtered df ms ds = Ok dff →
  value ∈ snd <$> Final.unit_options →
  value ≠ "hour_of_day" ∧
  "created_at" ∈ columns dff ∧ "weekday" ∈ columns dff ∧
  value ∈ columns dff ∧
  ∀ r, r ∈ rows dff → loaded_row value r.
Proof.
  intros Hload (_ & _ & ->)%df_filtered_Ok Hvalue. simpl.
  pose proof (final_load_data_has_columns _ _ Hload) as Hcols.
  rewrite Forall_forall in Hcols. unfold final_derived in Hcols.
  assert (Hrow : ∀ r', r' ∈ filter (selected ms ds) (rows df) →
    dt (λ t, Str (day_name t)) (at_col "created_at" r')
      = Ok (at_col "weekday" r') ∧
    Forall (λ c, ∃ f, as_float (at_col c r') = Ok f)
      ["energy_joules"; "energy_kwh"; "co2_kg"; "lightbulb_hours"]).
  { intros r' [_ Hr']%list_elem_of_filter.
    destruct (final_load_data_rowwise _ _ Hload) as [Hrows _].
    destruct (rowwise_elem_of _ _ _ _ Hrows Hr') as (r & _ & Hr).
    destruct (derive_final_cells _ _ Hr) as (_ & Hw & He & Hk & Hc & Hb).
    split; [done|].
    apply Forall_cons_2; [by eapply cell_div_float|].
    apply Forall_cons_2; [by eapply cell_div_float|].
    apply Forall_cons_2; [by eapply cell_mul_float|].
    apply Forall_cons_2; [by eapply cell_div_float|]. constructor. }
  assert (value ∈ ["energy_joules"; "energy_kwh"; "co2_kg";
                   "lightbulb_hours"]) as Hv by done.
  repeat (apply elem_of_cons in Hv as [->|Hv]);
    [| | | |by apply elem_of_nil in Hv];
    (split; [done|]); (split; [apply Hcols; by_compute|]);
    (split; [apply Hcols; by_compute|]);
    (split; [apply Hcols; by_compute|]);
    intros r' Hr'; destruct (Hrow r' Hr') as [Hw Hf]; (split; [done|]);
    rewrite Forall_forall in Hf; apply Hf; by_compute.
Qed.

Lemma display_energy_rowwise selected_unit_type df df' :
  Scaled.display_energy selected_unit_type df = Ok df' →
  (∀ c, c ∈ columns df → c ∈ columns df') ∧
  "display_energy" ∈ columns df' ∧
  ∃ conv : cell → result cell,
    (∀ x y, (∃ f, as_float x = Ok f) → conv x = Ok y →
            ∃ f, as_float y = Ok f) ∧
    rowwise (row_set "display_energy" (λ r, conv (at_col "base_energy" r)))
            (rows df) (rows df').
Proof.
  unfold Scaled.display_energy, sdiv, smul. intros H.
  repeat case_decide; inv_bind H; subst df';
    (split; [intros c Hc; apply columns_setcol_elem_of; by right|]);
    (split; [apply columns_setcol_elem_of; by left|]).
  - exists (cell_div (qz 3600000)). split.
    + intros u y _ Hy. by eapply cell_div_float.
    + by eapply rowwise_assign.
  - exists (λ u, cell_div (qz 3600000) u ≫= cell_mul (Q2Qc (475 # 1000))).
    split.
    + intros u y _ Hy. apply bind_Ok in Hy as (z & _ & Hy).
      by eapply cell_mul_float.
    + apply rowwise_setcol.
      exact (cellwise_mapM _ _ _ _ _
               (cellwise_mapM _ _ _ _ _ (cellwise_getcol _ _ _ Hx) Hx0) Hx1).
  - exists (cell_div (qz (50 * 3600))). split.
    + intros u y _ Hy. by eapply cell_div_float.
    + by eapply rowwise_assign.
  - exists Ok. split.
    + intros u y Hu [= <-]. done.
    + apply rowwise_setcol. by apply cellwise_getcol.
Qed.

Lemma scaled_pipeline_loaded_rows
    parse_float df0 df ms ds dff source dfb selected_unit_type dfu :
  Scaled.load_data parse_float df0 = Ok df →
  Scaled.df_filtered df ms ds = Ok dff →
  source ∈ snd <$> Scaled.energy_source_options →
  Scaled.base_energy source dff = Ok dfb →
  Scaled.display_energy selected_unit_type dfb = Ok dfu →
  "display_energy" ≠ "hour_of_day" ∧
  "created_at" ∈ columns dfu ∧ "weekday" ∈ columns dfu ∧
  "display_energy" ∈ columns dfu ∧
  ∀ r, r ∈ rows dfu → loaded_row "display_energy" r.
Proof.
  intros Hload (_ & _ & ->)%df_filtered_Ok Hsource Hbase Hdisp.
  pose proof (scaled_load_data_has_columns _ _ _ Hload) as Hcols.
  rewrite Forall_forall in Hcols. unfold scaled_derived in Hcols.
  unfold Scaled.base_energy in Hbase. inv_bind Hbase. subst dfb.
  pose proof (rowwise_setcol "base_energy" _ _ _ (cellwise_getcol _ _ _ Hx))
    as Hb.
  destruct (display_energy_rowwise _ _ _ Hdisp)
    as (Hsub & Hd & conv & Hconv & Hrw).
  split; [done|].
  split; [apply Hsub, columns_setcol_elem_of; right; apply Hcols; by_compute|].
  split; [apply Hsub, columns_setcol_elem_of; right; apply Hcols; by_compute|].
  split; [done|].
  intros r2 Hr2.
  destruct (rowwise_elem_of _ _ _ _ Hrw Hr2) as (r1 & Hr1 & Hset2).
  destruct (rowwise_elem_of _ _ _ _ Hb Hr1) as (r' & Hr' & Hset1).
  simpl in Hr'. apply list_elem_of_filter in Hr' as [_ Hr'].
  destruct (scaled_load_data_rowwise _ _ _ Hload) as [Hrows _].
  destruct (rowwise_elem_of _ _ _ _ Hrows Hr') as (r & _ & Hr).
  destruct (derive_scaled_cells _ _ _ Hr)
    as (_ & Hw & Hm & He & Hf & _).
  unfold row_set in Hset1, Hset2. simpl in Hset1. injection Hset1 as <-.
  apply bind_Ok in Hset2 as (y & Hy & [= <-]).
  rewrite at_col_insert_eq in Hy.
  split.
  - by rewrite !(at_col_insert_ne "created_at"),
      !(at_col_insert_ne "weekday") by done.
  - rewrite at_col_insert_eq. apply (Hconv _ _) in Hy; [done|].
    apply cell_mul_float in Hm. apply cell_div_float in He.
    assert (source ∈ ["final_energy_joules"; "measured_energy_joules";
                      "estimated_energy_joules"]) as Hs by done.
    repeat (apply elem_of_cons in Hs as [->|Hs]);
      [rewrite Hf; by apply cell_fillna_float|done|done
      |by apply elem_of_nil in Hs].
Qed.

(** * Further properties of the scripts *)

(** ** Hour buckets and weekdays *)

Lemma floor_H_spec t :
  floor_H t = ns_per_hour * (t / ns_per_hour)
  ∧ floor_H t ≤ t < floor_H t + ns_per_hour.
Proof.
  unfold floor_H.
  pose proof (Z.div_mod t ns_per_hour ltac:(done)).
  pose proof (Z.mod_pos_bound t ns_per_hour ltac:(done)). lia.
Qed.

Lemma floor_H_div t : floor_H t / ns_per_hour = t / ns_per_hour.
Proof.
  rewrite (proj1 (floor_H_spec t)), Z.mul_comm. by apply Z.div_mul.
Qed.

Lemma floor_H_day t : floor_H t / ns_per_day = t / ns_per_day.
Proof.
  unfold ns_per_day. rewrite (Z.mul_comm 24).
  rewrite <- !Z.div_div by done. by rewrite floor_H_div.
Qed.

Lemma day_name_elem_of t : day_name t ∈ day_names.
Proof.
  unfold day_name, weekday_of.
  pose proof (Z.mod_pos_bound (t / ns_per_day + 3) 7 ltac:(done)) as Hb.
  destruct (day_names !! Z.to_nat ((t / ns_per_day + 3) `mod` 7))
    as [d|] eqn:Hd.
  - by eapply list_elem_of_lookup_2.
  - apply lookup_ge_None in Hd. simpl in Hd. lia.
Qed.

(** X1. In every row of a loaded table (of either script) the timestamp,
    the hour bucket and the weekday are missing together; otherwise the
    bucket is a whole number of hours, at most one hour before the
    timestamp, the weekday is one of the seven day names, and the bucket
    lies on the same weekday and in the same hour of day as the
    timestamp. *)
Theorem hour_bucket_and_weekday (df df' : DataFrame) (i : nat)
    (r' : gmap string cell) :
  (Final.load_data df = Ok df' ∨
   ∃ parse_float, Scaled.load_data parse_float df = Ok df') →
  rows df' !! i = Some r' →
  (at_col "created_at" r' = NaN ∧ at_col "hour" r' = NaN ∧
   at_col "weekday" r' = NaN) ∨
  (∃ t h d,
     at_col "created_at" r' = Timestamp t ∧
     at_col "hour" r' = Timestamp h ∧ at_col "weekday" r' = Str d ∧
     h ≤ t < h + ns_per_hour ∧ h `mod` ns_per_hour = 0 ∧
     d ∈ day_names ∧ day_name h = d ∧ hour_of h = hour_of t).
Proof.
  intros Hload Hi.
  assert (dt (λ t, Timestamp (floor_H t)) (at_col "created_at" r')
            = Ok (at_col "hour" r') ∧
          dt (λ t, Str (day_name t)) (at_col "created_at" r')
            = Ok (at_col "weekday" r')) as [Hh Hw].
  { destruct Hload as [Hload|[parse_float Hload]].
    - destruct (final_load_data_rowwise _ _ Hload) as [Hrows _].
      destruct (rowwise_lookup _ _ _ _ _ Hrows Hi) as (r & _ & Hr).
      by destruct (derive_final_cells _ _ Hr) as (? & ? & _).
    - destruct (scaled_load_data_rowwise _ _ _ Hload) as [Hrows _].
      destruct (rowwise_lookup _ _ _ _ _ Hrows Hi) as (r & _ & Hr).
      by destruct (derive_scaled_cells _ _ _ Hr) as (? & ? & _). }
  destruct (at_col "created_at" r') as [| | |t]; simplify_eq/=.
  - left. by rewrite <- Hh, <- Hw.
  - right. exists t, (floor_H t), (day_name t).
    rewrite <- Hh, <- Hw. split; [done|]. split; [done|]. split; [done|].
    split; [apply floor_H_spec|].
    split.
    { rewrite (proj1 (floor_H_spec t)), Z.mul_comm. by apply Z.mod_mul. }
    split; [apply day_name_elem_of|].
    split.
    + unfold day_name, weekday_of. by rewrite floor_H_day.
    + unfold hour_of. by rewrite floor_H_div.
Qed.

Lemma hour_bucket_and_weekday_witness :
  let r' := default ∅ (rows Sample.loaded_final !! 1%nat) in
  Final.load_data Sample.csv = Ok Sample.loaded_final ∧
  rows Sample.loaded_final !! 1%nat = Some r' ∧
  at_col "created_at" r' = Timestamp 5 ∧
  at_col "hour" r' = Timestamp 0 ∧ at_col "weekday" r' = Str "Thursday".
Proof.
  intros r'.
  assert (H1 : Final.load_data Sample.csv = Ok Sample.loaded_final)
    by by_compute.
  assert (H2 : rows Sample.loaded_final !! 1%nat = Some r') by by_compute.
  split; [exact H1|]. split; [exact H2|].
  destruct (hour_bucket_and_weekday _ _ _ _ (or_introl H1) H2)
    as [(Hna & _)|(t & h & d & Ht & Hh & Hd & _)].
  - exfalso. revert Hna. by_compute.
  - by_compute.
Defined.

(** ** When the loaders return *)

Lemma mapM_Ok_intro {A B} (f : A → result B) (l : list A) :
  (∀ x, x ∈ l → ∃ y, f x = Ok y) → ∃ k, mapM f l = Ok k.
Proof.
  induction l as [|x l IH]; intros Hl; [by exists []|].
  destruct (Hl x) as [y Hy]; [left|].
  destruct IH as [k Hk]; [intros z Hz; apply Hl; by right|].
  exists (y :: k). simpl. rewrite Hy. simpl. rewrite Hk. done.
Qed.
















(** ** Filtering twice *)

(** X3. Filtering a filtered table again gives what one filter by the
    selections common to both gives, in either order of the two filters;
    a filter never changes the columns, and the rows it keeps are rows of
    the table in their order. *)
Theorem filter_twice_is_filter_by_both
    (df dff : DataFrame) (ms1 ds1 ms2 ds2 : list cell) :
  Views.df_filtered df ms1 ds1 = Ok dff →
  Views.df_filtered dff ms2 ds2
    = Views.df_filtered df (filter (.∈ ms2) ms1) (filter (.∈ ds2) ds1) ∧
  Views.df_filtered dff ms2 ds2
    = (dff' ← Views.df_filtered df ms2 ds2; Views.df_filtered dff' ms1 ds1) ∧
  columns dff = columns df ∧
  rows dff `sublist_of` rows df.
Proof.
  intros (Hm & Hd & ->)%df_filtered_Ok.
  assert (∀ ms ds l,
            Views.df_filtered {| columns := columns df; rows := l |} ms ds
            = Ok {| columns := columns df;
                    rows := filter (selected ms ds) l |}) as Hf.
  { intros ms ds l. by apply df_filtered_Ok. }
  split_and!.
  - rewrite Hf. destruct df as [cs l]. simpl in *. rewrite Hf. do 2 f_equal.
    rewrite list_filter_filter. apply filter_ext_elem_of.
    intros r _. unfold selected. rewrite !list_elem_of_filter. tauto.
  - destruct df as [cs l]. simpl in *. rewrite !Hf, bind_Ok_l, Hf.
    do 2 f_equal. rewrite !list_filter_filter. apply filter_ext_elem_of.
    intros r _. tauto.
  - done.
  - apply sublist_filter.
Qed.

Lemma filter_twice_is_filter_by_both_witness :
  let dff := Sample.the Sample.csv
               (Views.df_filtered Sample.loaded_final [Str "A"; Str "B"]
                  [Str "gpu0"]) in
  Views.df_filtered Sample.loaded_final [Str "A"; Str "B"] [Str "gpu0"]
    = Ok dff ∧
  Views.df_filtered dff [Str "B"; Str "A"] [Str "gpu0"; Str "gpu1"]
    = Views.df_filtered Sample.loaded_final [Str "A"; Str "B"] [Str "gpu0"] ∧
  length (rows dff) = 3%nat.
Proof.
  intros dff.
  assert (H1 : Views.df_filtered Sample.loaded_final [Str "A"; Str "B"]
                 [Str "gpu0"] = Ok dff) by by_compute.
  split; [exact H1|].
  destruct (filter_twice_is_filter_by_both _ _ _ _ [Str "B"; Str "A"]
              [Str "gpu0"; Str "gpu1"] H1) as (H2 & _).
  split; [|by_compute].
  etrans; [exact H2|]. by_compute.
Defined.

(** ** Missing energy values *)

Lemma cell_div_NaN k x y : cell_div k x = Ok y → (y = NaN ↔ x = NaN).
Proof. destruct x; simpl; intros [= <-]; done. Qed.

Lemma cell_mul_NaN k x y : cell_mul k x = Ok y → (y = NaN ↔ x = NaN).
Proof. destruct x; simpl; intros [= <-]; done. Qed.

Lemma cell_div_is_num k x y : cell_div k x = Ok y → is_num y.
Proof. destruct x; simpl; intros [= <-]; done. Qed.

Lemma cell_mul_is_num k x y : cell_mul k x = Ok y → is_num y.
Proof. destruct x; simpl; intros [= <-]; done. Qed.

(** X4. A row of a loaded table has no energy, in any unit, exactly when
    its sources are missing: in the scaled script when the measured field
    does not give a number and the duration is missing, in the first
    script when the duration is missing. Every derived energy cell is a
    number or missing, never text. *)
Theorem energy_missing_iff_sources_missing :
  (∀ parse_float df df' i r',
     Scaled.load_data parse_float df = Ok df' →
     rows df' !! i = Some r' →
     let raw :=
       cell_to_numeric parse_float
         (at_col "energy_consumption_llm_total" r') in
     (at_col "final_energy_joules" r' = NaN ↔
        raw = NaN ∧ at_col "total_duration" r' = NaN) ∧
     (∀ c, c ∈ ["energy_kwh"; "co2_kg"; "lightbulb_hours"] →
        (at_col c r' = NaN ↔ at_col "final_energy_joules" r' = NaN)) ∧
     (∀ c, c ∈ ["measured_energy_joules"; "estimated_energy_joules";
                "final_energy_joules"; "energy_kwh"; "co2_kg";
                "lightbulb_hours"] → is_num (at_col c r'))) ∧
  (∀ df df' i r',
     Final.load_data df = Ok df' →
     rows df' !! i = Some r' →
     (∀ c, c ∈ ["energy_joules"; "energy_kwh"; "co2_kg"; "lightbulb_hours"] →
        (at_col c r' = NaN ↔ at_col "total_duration" r' = NaN) ∧
        is_num (at_col c r'))).
Proof.
  split.
  - intros parse_float df df' i r' Hload Hi raw.
    destruct (scaled_load_data_rowwise _ _ _ Hload) as [Hrows _].
    destruct (rowwise_lookup _ _ _ _ _ Hrows Hi) as (r & _ & Hr).
    destruct (derive_scaled_cells _ _ _ Hr)
      as (_ & _ & Hm & He & Hf & Hk & Hc & Hb).
    fold raw in Hm.
    pose proof (cell_mul_NaN _ _ _ Hm) as Hm0.
    pose proof (cell_div_NaN _ _ _ He) as He0.
    pose proof (cell_div_NaN _ _ _ Hk) as Hk0.
    pose proof (cell_mul_NaN _ _ _ Hc) as Hc0.
    pose proof (cell_div_NaN _ _ _ Hb) as Hb0.
    pose proof (cell_mul_is_num _ _ _ Hm) as Hm1.
    pose proof (cell_div_is_num _ _ _ He) as He1.
    assert (Hf1 : is_num (at_col "final_energy_joules" r')).
    { rewrite Hf. by destruct (at_col "measured_energy_joules" r'). }
    assert (Hf0 : at_col "final_energy_joules" r' = NaN ↔
                  at_col "measured_energy_joules" r' = NaN ∧
                  at_col "estimated_energy_joules" r' = NaN).
    { rewrite Hf. destruct (at_col "measured_energy_joules" r'); simpl;
        intuition congruence. }
    split_and!.
    + tauto.
    + intros c Hc'. repeat (apply elem_of_cons in Hc' as [->|Hc']);
        [tauto..|by apply elem_of_nil in Hc'].
    + intros c Hc'. repeat (apply elem_of_cons in Hc' as [->|Hc']);
        eauto using cell_div_is_num, cell_mul_is_num.
      by apply elem_of_nil in Hc'.
  - intros df df' i r' Hload Hi.
    destruct (final_load_data_rowwise _ _ Hload) as [Hrows _].
    destruct (rowwise_lookup _ _ _ _ _ Hrows Hi) as (r & _ & Hr).
    destruct (derive_final_cells _ _ Hr) as (_ & _ & He & Hk & Hc & Hb).
    pose proof (cell_div_NaN _ _ _ He) as He0.
    pose proof (cell_div_NaN _ _ _ Hk) as Hk0.
    pose proof (cell_mul_NaN _ _ _ Hc) as Hc0.
    pose proof (cell_div_NaN _ _ _ Hb) as Hb0.
    intros c Hc'. repeat (apply elem_of_cons in Hc' as [->|Hc']);
      [split; [tauto|eauto using cell_div_is_num, cell_mul_is_num]..
      |by apply elem_of_nil in Hc'].
Qed.

Lemma energy_missing_iff_sources_missing_witness :
  let r' := default ∅ (rows Sample.loaded_scaled !! 3%nat) in
  Scaled.load_data Sample.parse_digits Sample.csv = Ok Sample.loaded_scaled ∧
  rows Sample.loaded_scaled !! 3%nat = Some r' ∧
  at_col "total_duration" r' = NaN ∧
  at_col "final_energy_joules" r' ≠ NaN ∧
  at_col "co2_kg" r' ≠ NaN.
Proof.
  intros r'.
  assert (H1 : Scaled.load_data Sample.parse_digits Sample.csv
               = Ok Sample.loaded_scaled) by by_compute.
  assert (H2 : rows Sample.loaded_scaled !! 3%nat = Some r') by by_compute.
  assert (H3 : at_col "total_duration" r' = NaN) by by_compute.
  assert (H4 : cell_to_numeric Sample.parse_digits
                 (at_col "energy_consumption_llm_total" r') ≠ NaN)
    by by_compute.
  destruct (proj1 energy_missing_iff_sources_missing _ _ _ _ _ H1 H2)
    as (Hf & Hu & _).
  assert (H5 : at_col "final_energy_joules" r' ≠ NaN) by tauto.
  split_and!; [done..|].
  intros Hco. apply H5, (Hu "co2_kg"); [by_compute|done].
Defined.

(** ** The two loaders on one table *)

(** X5. On the same table the two loaders return tables of the same
    length that agree, row by row, on the hour bucket and the weekday; the
    estimate of the scaled script is the energy of the first script; and
    in a row whose measured field gives no number the kilowatt-hours, the
    CO2 mass and the lightbulb hours of the two scripts coincide. *)
Theorem loaders_agree
    (parse_float : string → option Qc) (df df1 df2 : DataFrame) :
  Final.load_data df = Ok df1 →
  Scaled.load_data parse_float df = Ok df2 →
  length (rows df1) = length (rows df2) ∧
  ∀ i r1 r2,
    rows df1 !! i = Some r1 → rows df2 !! i = Some r2 →
    at_col "hour" r1 = at_col "hour" r2 ∧
    at_col "weekday" r1 = at_col "weekday" r2 ∧
    at_col "energy_joules" r1 = at_col "estimated_energy_joules" r2 ∧
    (cell_to_numeric parse_float
       (at_col "energy_consumption_llm_total" r2) = NaN →
     at_col "energy_joules" r1 = at_col "final_energy_joules" r2 ∧
     at_col "energy_kwh" r1 = at_col "energy_kwh" r2 ∧
     at_col "co2_kg" r1 = at_col "co2_kg" r2 ∧
     at_col "lightbulb_hours" r1 = at_col "lightbulb_hours" r2).
Proof.
  intros H1 H2.
  destruct (final_load_data_rowwise _ _ H1) as [Hrows1 _].
  destruct (scaled_load_data_rowwise _ _ _ H2) as [Hrows2 _].
  split.
  { by rewrite (rowwise_length _ _ _ Hrows1), (rowwise_length _ _ _ Hrows2). }
  intros i r1 r2 Hi1 Hi2.
  destruct (rowwise_lookup _ _ _ _ _ Hrows1 Hi1) as (r & Hr & Hd1).
  destruct (rowwise_lookup _ _ _ _ _ Hrows2 Hi2) as (r0 & Hr0 & Hd2).
  assert (r0 = r) as -> by congruence.
  destruct (derive_final_cells _ _ Hd1) as (Hh1 & Hw1 & He1 & Hk1 & Hc1 & Hb1).
  destruct (derive_scaled_cells _ _ _ Hd2)
    as (Hh2 & Hw2 & Hm2 & He2 & Hf2 & Hk2 & Hc2 & Hb2).
  assert (Hin : ∀ c, c ∈ ["created_at"; "total_duration"] →
                     at_col c r1 = at_col c r2).
  { intros c Hc. unfold at_col.
    rewrite (derive_final_frame _ _ c Hd1), (derive_scaled_frame _ _ _ c Hd2);
      [done|..];
      repeat (apply elem_of_cons in Hc as [->|Hc]);
      first [by_compute | by apply elem_of_nil in Hc]. }
  rewrite (Hin "created_at") in Hh1, Hw1 by by_compute.
  rewrite (Hin "total_duration") in He1 by by_compute.
  assert (Hh : at_col "hour" r1 = at_col "hour" r2) by congruence.
  assert (Hw : at_col "weekday" r1 = at_col "weekday" r2) by congruence.
  assert (He : at_col "energy_joules" r1 = at_col "estimated_energy_joules" r2)
    by congruence.
  split_and!; [done..|].
  intros Hraw. rewrite Hraw in Hm2. simpl in Hm2. injection Hm2 as Hm2.
  rewrite <- Hm2 in Hf2. simpl in Hf2.
  assert (Hf : at_col "energy_joules" r1 = at_col "final_energy_joules" r2)
    by congruence.
  rewrite <- Hf in Hk2, Hb2.
  assert (Hk : at_col "energy_kwh" r1 = at_col "energy_kwh" r2) by congruence.
  rewrite <- Hk in Hc2.
  split_and!; congruence.
Qed.

Lemma loaders_agree_witness :
  let r1 := default ∅ (rows Sample.loaded_final !! 2%nat) in
  let r2 := default ∅ (rows Sample.loaded_scaled !! 2%nat) in
  Final.load_data Sample.csv = Ok Sample.loaded_final ∧
  Scaled.load_data Sample.parse_digits Sample.csv = Ok Sample.loaded_scaled ∧
  at_col "energy_consumption_llm_total" r2 = Str "n/a" ∧
  at_col "co2_kg" r1 = at_col "co2_kg" r2.
Proof.
  intros r1 r2.
  assert (H1 : Final.load_data Sample.csv = Ok Sample.loaded_final)
    by by_compute.
  assert (H2 : Scaled.load_data Sample.parse_digits Sample.csv
               = Ok Sample.loaded_scaled) by by_compute.
  assert (H3 : rows Sample.loaded_final !! 2%nat = Some r1) by by_compute.
  assert (H4 : rows Sample.loaded_scaled !! 2%nat = Some r2) by by_compute.
  assert (H5 : cell_to_numeric Sample.parse_digits
                 (at_col "energy_consumption_llm_total" r2) = NaN)
    by by_compute.
  split; [exact H1|]. split; [exact H2|]. split; [by_compute|].
  destruct (loaders_agree _ _ _ _ H1 H2) as [_ Hrow].
  destruct (Hrow _ _ _ H3 H4) as (_ & _ & _ & Hun).
  exact (proj1 (proj2 (proj2 (Hun H5)))).
Defined.

(** ** The display unit and the unit columns *)

Lemma display_energy_cells selected_unit_type df df' :
  Scaled.display_energy selected_unit_type df = Ok df' →
  rowwise (row_set "display_energy"
             (λ r, convert selected_unit_type (at_col "base_energy" r)))
          (rows df) (rows df').
Proof.
  unfold Scaled.display_energy, convert, sdiv, smul. intros H.
  repeat case_decide; inv_bind H; subst df'.
  - by eapply rowwise_assign.
  - apply rowwise_setcol.
    exact (cellwise_mapM _ _ _ _ _
             (cellwise_mapM _ _ _ _ _ (cellwise_getcol _ _ _ Hx) Hx0) Hx1).
  - by eapply rowwise_assign.
  - apply rowwise_setcol. by apply cellwise_getcol.
Qed.

Lemma base_energy_cells source df df' :
  Scaled.base_energy source df = Ok df' →
  rowwise (row_set "base_energy" (λ r, Ok (at_col source r)))
          (rows df) (rows df').
Proof.
  unfold Scaled.base_energy. intros H. inv_bind H. subst df'.
  apply rowwise_setcol. by apply cellwise_getcol.
Qed.

(** The cells of a row after [base_energy] and [display_energy]. *)
Lemma displayed_row source selected_unit_type dff dfb dfu r' :
  Scaled.base_energy source dff = Ok dfb →
  Scaled.display_energy selected_unit_type dfb = Ok dfu →
  r' ∈ rows dfu →
  ∃ r, r ∈ rows dff ∧
       convert selected_unit_type (at_col source r)
         = Ok (at_col "display_energy" r') ∧
       at_col "base_energy" r' = at_col source r ∧
       ∀ c, c ≠ "base_energy" → c ≠ "display_energy" →
            at_col c r' = at_col c r.
Proof.
  intros Hb Hd Hr'.
  destruct (rowwise_elem_of _ _ _ _ (display_energy_cells _ _ _ Hd) Hr')
    as (r1 & Hr1 & Hset2).
  destruct (rowwise_elem_of _ _ _ _ (base_energy_cells _ _ _ Hb) Hr1)
    as (r & Hr & Hset1).
  unfold row_set in Hset1, Hset2. simpl in Hset1. injection Hset1 as <-.
  apply bind_Ok in Hset2 as (y & Hy & [= <-]).
  rewrite at_col_insert_eq in Hy.
  exists r. split; [done|]. split; [by rewrite at_col_insert_eq|].
  split.
  - by rewrite at_col_insert_ne, at_col_insert_eq.
  - intros c Hc1 Hc2. by rewrite !at_col_insert_ne.
Qed.

(** X6. With the final energy as source, the energy the second script
    displays is, row by row, the unit column its loader computed: the
    kilowatt-hours for [kwh], the CO2 mass for [co2], the lightbulb hours
    for [bulb], and the final energy itself otherwise. *)
Theorem display_energy_matches_unit_columns
    (parse_float : string → option Qc) (df0 df dff dfb dfu : DataFrame)
    (selected_models selected_devices : list cell)
    (selected_unit_type : string) (r' : gmap string cell) :
  Scaled.load_data parse_float df0 = Ok df →
  Scaled.df_filtered df selected_models selected_devices = Ok dff →
  Scaled.base_energy "final_energy_joules" dff = Ok dfb →
  Scaled.display_energy selected_unit_type dfb = Ok dfu →
  r' ∈ rows dfu →
  (selected_unit_type = "kwh" →
     at_col "display_energy" r' = at_col "energy_kwh" r') ∧
  (selected_unit_type = "co2" →
     at_col "display_energy" r' = at_col "co2_kg" r') ∧
  (selected_unit_type = "bulb" →
     at_col "display_energy" r' = at_col "lightbulb_hours" r') ∧
  (selected_unit_type ∉ ["kwh"; "co2"; "bulb"] →
     at_col "display_energy" r' = at_col "final_energy_joules" r').
Proof.
  intros Hload (_ & _ & ->)%df_filtered_Ok Hb Hd Hr'.
  destruct (displayed_row _ _ _ _ _ _ Hb Hd Hr')
    as (r & Hr & Hconv & _ & Hsame).
  simpl in Hr. apply list_elem_of_filter in Hr as [_ Hr].
  destruct (scaled_load_data_rowwise _ _ _ Hload) as [Hrows _].
  destruct (rowwise_elem_of _ _ _ _ Hrows Hr) as (r0 & _ & Hr0).
  destruct (derive_scaled_cells _ _ _ Hr0)
    as (_ & _ & _ & _ & _ & Hk & Hc & Hbulb).
  rewrite (Hsame "energy_kwh"), (Hsame "co2_kg"), (Hsame "lightbulb_hours"),
    (Hsame "final_energy_joules") by by_compute.
  unfold convert in Hconv. split_and!.
  - intros ->. rewrite decide_True in Hconv by done. congruence.
  - intros ->. rewrite decide_False, decide_True in Hconv by done.
    rewrite Hk in Hconv. simpl in Hconv. congruence.
  - intros ->. rewrite !decide_False, decide_True in Hconv by done.
    congruence.
  - intros Hu. rewrite !decide_False in Hconv by set_solver. congruence.
Qed.

Lemma display_energy_matches_unit_columns_witness :
  let dfu := Sample.the Sample.csv
               (Scaled.display_energy "co2" Sample.filtered_scaled) in
  let r' := default ∅ (rows dfu !! 1%nat) in
  Scaled.display_energy "co2" Sample.filtered_scaled = Ok dfu ∧
  r' ∈ rows dfu ∧
  at_col "display_energy" r' = at_col "co2_kg" r' ∧
  at_col "display_energy" r' ≠ NaN.
Proof.
  intros dfu r'.
  assert (H1 : Scaled.load_data Sample.parse_digits Sample.csv
               = Ok Sample.loaded_scaled) by by_compute.
  assert (H2 : Scaled.df_filtered Sample.loaded_scaled [Str "A"; Str "B"]
                 [Str "gpu0"]
               = Ok (Sample.the Sample.csv
                       (Scaled.df_filtered Sample.loaded_scaled
                          [Str "A"; Str "B"] [Str "gpu0"]))) by by_compute.
  assert (H3 : Scaled.base_energy "final_energy_joules"
                 (Sample.the Sample.csv
                    (Scaled.df_filtered Sample.loaded_scaled
                       [Str "A"; Str "B"] [Str "gpu0"]))
               = Ok Sample.filtered_scaled) by by_compute.
  assert (H4 : Scaled.display_energy "co2" Sample.filtered_scaled = Ok dfu)
    by by_compute.
  assert (H5 : r' ∈ rows dfu) by by_compute.
  split; [exact H4|]. split; [exact H5|]. split; [|by_compute].
  exact (proj1 (proj2 (display_energy_matches_unit_columns
                         _ _ _ _ _ _ _ _ _ _ H1 H2 H3 H4 H5)) eq_refl).
Defined.

(** ** Totals in the display units *)

Lemma floats_intro (s : Series) :
  (∀ x, x ∈ s → is_num x) → ∃ v, floats s = Ok v.
Proof.
  intros Hs. apply mapM_Ok_intro. intros x Hx.
  specialize (Hs x Hx). destruct x; simpl in *; eauto; done.
Qed.

Lemma floats_is_num (s : Series) v x : floats s = Ok v → x ∈ s → is_num x.
Proof.
  unfold floats. intros H%mapM_Ok Hx.
  apply list_elem_of_lookup in Hx as [i Hi].
  destruct (Forall2_lookup_l _ _ _ _ _ H Hi) as (y & _ & Hy).
  by destruct x.
Qed.

Lemma total_val_intro value (df : DataFrame) :
  value ∈ columns df → (∀ r, r ∈ rows df → is_num (at_col value r)) →
  Views.total_val value df = Ok (sum_of value (rows df)).
Proof.
  intros Hc Hnum. apply total_val_Ok. split; [done|]. split; [|done].
  apply floats_intro. intros x (r & -> & Hr)%list_elem_of_fmap. eauto.
Qed.

Lemma total_val_is_num value (df : DataFrame) t r :
  Views.total_val value df = Ok t → r ∈ rows df → is_num (at_col value r).
Proof.
  intros (_ & [v Hv] & _)%total_val_Ok Hr.
  apply (floats_is_num _ _ _ Hv). by apply list_elem_of_fmap_2.
Qed.

(** A column that is a fixed multiple of another, row by row, has that
    multiple of its sum. *)
Lemma sum_of_multiple a b (f : Qc) (l : list (gmap string cell)) :
  (∀ r, r ∈ l →
     default 0%Qc (float_of (at_col b r))
     = (default 0 (float_of (at_col a r)) * f)%Qc) →
  sum_of b l = (sum_of a l * f)%Qc.
Proof.
  induction l as [|r l IH]; intros H.
  - unfold sum_of. simpl. ring.
  - rewrite !sum_of_cons, IH by (intros; apply H; by right).
    rewrite (H r) by by left. ring.
Qed.

Lemma cell_div_multiple k x y :
  cell_div k x = Ok y →
  is_num y ∧
  default 0%Qc (float_of y) = (default 0 (float_of x) * / k)%Qc.
Proof.
  destruct x; simpl; intros [= <-]; (split; [done|]); simpl;
    [ring|done].
Qed.

Lemma cell_mul_multiple k x y :
  cell_mul k x = Ok y →
  is_num y ∧ default 0%Qc (float_of y) = (default 0 (float_of x) * k)%Qc.
Proof.
  destruct x; simpl; intros [= <-]; (split; [done|]); simpl;
    [ring|done].
Qed.

(** The total of a column that is a fixed multiple of another. *)
Lemma total_val_multiple a b (f : Qc) (df : DataFrame) :
  b ∈ columns df →
  (∀ r, r ∈ rows df →
     is_num (at_col b r) ∧
     default 0%Qc (float_of (at_col b r))
     = (default 0 (float_of (at_col a r)) * f)%Qc) →
  Views.total_val b df = Ok (sum_of a (rows df) * f)%Qc.
Proof.
  intros Hb H. rewrite total_val_intro by (done || (intros; by apply H)).
  f_equal. apply sum_of_multiple. intros; by apply H.
Qed.

(** X7. The totals in the display units are the joule total converted: in
    the second script the displayed total is the total of the base energy
    divided by 3.6e6 for [kwh], that times 0.475 for [co2], divided by
    180000 for [bulb] and unchanged otherwise; in the first script the
    totals of the three unit columns are the same conversions of the total
    of [energy_joules], for every filter. *)
Theorem totals_are_converted_totals :
  (∀ selected_unit_type dfb dfu tb,
     Scaled.display_energy selected_unit_type dfb = Ok dfu →
     Views.total_val "base_energy" dfb = Ok tb →
     ∃ t, Scaled.total_val dfu = Ok t ∧
          (selected_unit_type = "kwh" → t = (tb / qz 3600000)%Qc) ∧
          (selected_unit_type = "co2" →
             t = (tb / qz 3600000 * Q2Qc (475 # 1000))%Qc) ∧
          (selected_unit_type = "bulb" → t = (tb / qz 180000)%Qc) ∧
          (selected_unit_type ∉ ["kwh"; "co2"; "bulb"] → t = tb)) ∧
  (∀ df0 df selected_models selected_devices dff,
     Final.load_data df0 = Ok df →
     Final.df_filtered df selected_models selected_devices = Ok dff →
     ∃ tj, Final.total_val "energy_joules" dff = Ok tj ∧
           Final.total_val "energy_kwh" dff = Ok (tj / qz 3600000)%Qc ∧
           Final.total_val "co2_kg" dff
             = Ok (tj / qz 3600000 * Q2Qc (475 # 1000))%Qc ∧
           Final.total_val "lightbulb_hours" dff = Ok (tj / qz 180000)%Qc).
Proof.
  split.
  - intros u dfb dfu tb Hd Htb.
    pose proof (display_energy_cells _ _ _ Hd) as Hrw.
    destruct (display_energy_rowwise _ _ _ Hd) as (_ & Hcol & _).
    assert (Hrow : ∀ r', r' ∈ rows dfu →
              is_num (at_col "base_energy" r') ∧
              convert u (at_col "base_energy" r')
                = Ok (at_col "display_energy" r')).
    { intros r' Hr'.
      destruct (rowwise_elem_of _ _ _ _ Hrw Hr') as (r & Hr & Hset).
      unfold row_set in Hset. apply bind_Ok in Hset as (y & Hy & [= <-]).
      rewrite at_col_insert_eq, at_col_insert_ne by done.
      split; [|done]. by eapply total_val_is_num. }
    assert (Hbase : sum_of "base_energy" (rows dfu) = tb).
    { apply total_val_Ok in Htb as (_ & _ & ->). unfold sum_of.
      f_equal. eapply fmap_rowwise; [exact Hrw|].
      intros r r' Hset. unfold row_set in Hset.
      apply bind_Ok in Hset as (y & Hy & [= <-]).
      by rewrite at_col_insert_ne. }
    assert (Hfac : ∀ f : Qc,
              (∀ x y, is_num x → convert u x = Ok y →
                 is_num y ∧
                 default 0%Qc (float_of y)
                 = (default 0 (float_of x) * f)%Qc) →
              Scaled.total_val dfu = Ok (tb * f)%Qc).
    { intros f Hf. rewrite <- Hbase. apply total_val_multiple; [done|].
      intros r' Hr'. destruct (Hrow r' Hr') as [Hn Hc]. by apply Hf. }
    unfold convert in Hfac.
    destruct (decide (u = "kwh")) as [->|Hk];
      [|destruct (decide (u = "co2")) as [->|Hc];
        [|destruct (decide (u = "bulb")) as [->|Hb]]].
    + eexists. split; [apply (Hfac (/ qz 3600000)%Qc)|].
      * intros x y _. apply cell_div_multiple.
      * split_and!; try done. intros Hn. by destruct Hn; left.
    + eexists. split;
        [apply (Hfac (/ qz 3600000 * Q2Qc (475 # 1000))%Qc)|].
      * intros x y _ (k & Hk' & Hy)%bind_Ok.
        destruct (cell_div_multiple _ _ _ Hk') as [_ Hk''].
        destruct (cell_mul_multiple _ _ _ Hy) as [? ->]. split; [done|].
        rewrite Hk''. ring.
      * split_and!; try done.
        -- intros _. unfold Qcdiv. ring.
        -- intros Hn. destruct Hn. right; by left.
    + eexists. split; [apply (Hfac (/ qz 180000)%Qc)|].
      * intros x y _. apply cell_div_multiple.
      * split_and!; try done. intros Hn. destruct Hn. right; right; by left.
    + eexists. split; [apply (Hfac 1%Qc)|].
      * intros x y Hx [= <-]. split; [done|]. ring.
      * split_and!; try done. intros _. ring.
  - intros df0 df ms ds dff Hload Hf.
    assert (Hu : ∀ c, c ∈ snd <$> Final.unit_options →
                 c ∈ columns dff) by
      (intros c Hc; by destruct (final_pipeline_loaded_rows
                                   _ _ _ _ _ c Hload Hf Hc)
         as (_ & _ & _ & ? & _)).
    pose proof Hf as (_ & _ & ->)%df_filtered_Ok.
    assert (Hrow : ∀ r', r' ∈ filter (selected ms ds) (rows df) →
              cell_div (qz 1000000000) (at_col "total_duration" r')
                = Ok (at_col "energy_joules" r') ∧
              cell_div (qz 3600000) (at_col "energy_joules" r')
                = Ok (at_col "energy_kwh" r') ∧
              cell_mul (Q2Qc (475 # 1000)) (at_col "energy_kwh" r')
                = Ok (at_col "co2_kg" r') ∧
              cell_div (qz (50 * 3600)) (at_col "energy_joules" r')
                = Ok (at_col "lightbulb_hours" r')).
    { intros r' [_ Hr']%list_elem_of_filter.
      destruct (final_load_data_rowwise _ _ Hload) as [Hrows _].
      destruct (rowwise_elem_of _ _ _ _ Hrows Hr') as (r & _ & Hr).
      by destruct (derive_final_cells _ _ Hr) as (_ & _ & ? & ? & ? & ?). }
    simpl in *. eexists. split_and!.
    + apply total_val_intro; [apply Hu; by_compute|].
      intros r' Hr'. destruct (Hrow r' Hr') as (He & _).
      by eapply cell_div_is_num.
    + apply (total_val_multiple "energy_joules" "energy_kwh"
               (/ qz 3600000)%Qc); [apply Hu; by_compute|].
      intros r' Hr'. destruct (Hrow r' Hr') as (_ & Hk & _).
      by apply cell_div_multiple.
    + unfold Qcdiv. rewrite <- Qcmult_assoc.
      apply (total_val_multiple "energy_joules" "co2_kg");
        [apply Hu; by_compute|].
      intros r' Hr'. destruct (Hrow r' Hr') as (_ & Hk & Hc & _).
      destruct (cell_div_multiple _ _ _ Hk) as [_ Hk'].
      destruct (cell_mul_multiple _ _ _ Hc) as [? ->]. split; [done|].
      rewrite Hk'. ring.
    + apply (total_val_multiple "energy_joules" "lightbulb_hours"
               (/ qz 180000)%Qc); [apply Hu; by_compute|].
      intros r' Hr'. destruct (Hrow r' Hr') as (_ & _ & _ & Hb).
      by apply cell_div_multiple.
Qed.

Lemma totals_are_converted_totals_witness :
  Final.load_data Sample.csv = Ok Sample.loaded_final ∧
  Final.df_filtered Sample.loaded_final [Str "A"; Str "B"] [Str "gpu0"]
    = Ok Sample.filtered_final ∧
  Final.total_val "energy_joules" Sample.filtered_final = Ok (qz 10800) ∧
  Final.total_val "energy_kwh" Sample.filtered_final
    = Ok (qz 10800 / qz 3600000)%Qc.
Proof.
  assert (H1 : Final.load_data Sample.csv = Ok Sample.loaded_final)
    by by_compute.
  assert (H2 : Final.df_filtered Sample.loaded_final [Str "A"; Str "B"]
                 [Str "gpu0"] = Ok Sample.filtered_final) by by_compute.
  assert (H3 : Final.total_val "energy_joules" Sample.filtered_final
               = Ok (qz 10800)) by by_compute.
  split; [exact H1|]. split; [exact H2|]. split; [exact H3|].
  destruct (proj2 totals_are_converted_totals _ _ _ _ _ H1 H2)
    as (tj & Htj & Hk & _).
  assert (tj = qz 10800) as -> by congruence.
  exact Hk.
Defined.

(** ** The views of the tables the scripts build *)

Lemma loaded_row_is_num value r : loaded_row value r → is_num (at_col value r).
Proof. intros [_ [x Hx]]. by destruct (at_col value r). Qed.

(** The aggregated views return on a table that has the key columns and a
    value column of floats. *)
Lemma views_return value (dff : DataFrame) :
  "hour" ∈ columns dff → "model_name" ∈ columns dff →
  "device" ∈ columns dff → value ∈ columns dff →
  (∀ r, r ∈ rows dff → is_num (at_col value r)) →
  (∃ t, Views.total_val value dff = Ok t) ∧
  (∃ g, Views.hourly_model value dff = Ok g) ∧
  (∃ g, Views.device_energy value dff = Ok g) ∧
  (∃ g, Views.cross_data value dff = Ok g) ∧
  (∃ a, Views.avg_hourly value dff = Ok a).
Proof.
  intros Hh Hm Hd Hv Hnum.
  destruct (floats_intro (at_col value <$> rows dff)) as [v Hfl].
  { intros x (r & -> & Hr)%list_elem_of_fmap. eauto. }
  assert (Hg : ∀ on, Forall (λ c, c ∈ columns dff) on →
                     ∃ g, Views.groupby_sum_of on value dff = Ok g).
  { intros on Hon. by eapply groupby_sum_of_intro. }
  split_and!.
  - rewrite total_val_intro by done. eauto.
  - apply Hg. by repeat constructor.
  - unfold Views.device_energy.
    destruct (Hg ["device"]) as [g ->]; [by repeat constructor|].
    rewrite bind_Ok_l. eauto.
  - apply Hg. by repeat constructor.
  - unfold Views.avg_hourly.
    destruct (Hg ["model_name"]) as [g ->]; [by repeat constructor|].
    rewrite bind_Ok_l, row_keys_intro by (by repeat constructor).
    rewrite bind_Ok_l, (getcol_intro _ _ Hh), bind_Ok_l. eauto.
Qed.

Lemma base_energy_returns source (df : DataFrame) :
  source ∈ columns df → ∃ df', Scaled.base_energy source df = Ok df'.
Proof.
  intros Hs. unfold Scaled.base_energy.
  rewrite (getcol_intro _ _ Hs), bind_Ok_l. eauto.
Qed.

Lemma display_energy_returns selected_unit_type (df : DataFrame) :
  "base_energy" ∈ columns df →
  (∀ r, r ∈ rows df → is_num (at_col "base_energy" r)) →
  ∃ df', Scaled.display_energy selected_unit_type df = Ok df'.
Proof.
  intros Hb Hnum.
  assert (Hdiv : ∀ k, ∃ v, mapM (cell_div k) (at_col "base_energy" <$> rows df)
                           = Ok v).
  { intros k. apply mapM_Ok_intro.
    intros x (r & -> & Hr)%list_elem_of_fmap. specialize (Hnum r Hr).
    destruct (at_col "base_energy" r); simpl in *; eauto; done. }
  unfold Scaled.display_energy, sdiv, smul.
  repeat case_decide; rewrite (getcol_intro _ _ Hb), bind_Ok_l.
  - destruct (Hdiv (qz 3600000)) as [v ->]. rewrite bind_Ok_l. eauto.
  - destruct (Hdiv (qz 3600000)) as [v Hv]. rewrite Hv, bind_Ok_l.
    destruct (mapM_Ok_intro (cell_mul (Q2Qc (475 # 1000))) v) as [w ->].
    { intros y Hy. apply mapM_Ok in Hv.
      apply list_elem_of_lookup in Hy as [i Hi].
      destruct (Forall2_lookup_r _ _ _ _ _ Hv Hi) as (x & _ & Hx).
      apply cell_div_is_num in Hx. destruct y; simpl in *; eauto; done. }
    rewrite bind_Ok_l. eauto.
  - destruct (Hdiv (qz (50 * 3600))) as [v ->]. rewrite bind_Ok_l. eauto.
  - eauto.
Qed.

(** X8. On the table a script builds (loaded, filtered, and in the second
    script converted to the display unit) the total, the hourly view, the
    device view, the model and device view and the forecast all return a
    result: none raises, whatever the selections, the unit and the energy
    source. *)
Theorem aggregated_views_return :
  (∀ df0 df selected_models selected_devices dff selected_unit,
     Final.load_data df0 = Ok df →
     Final.df_filtered df selected_models selected_devices = Ok dff →
     selected_unit ∈ snd <$> Final.unit_options →
     (∃ t, Final.total_val selected_unit dff = Ok t) ∧
     (∃ g, Final.hourly_model selected_unit dff = Ok g) ∧
     (∃ g, Final.device_energy selected_unit dff = Ok g) ∧
     (∃ g, Final.cross_data selected_unit dff = Ok g) ∧
     (∃ fc, Final.forecast_df selected_unit dff = Ok fc)) ∧
  (∀ parse_float df0 df selected_models selected_devices dff
     selected_energy_column selected_unit_type,
     Scaled.load_data parse_float df0 = Ok df →
     Scaled.df_filtered df selected_models selected_devices = Ok dff →
     selected_energy_column ∈ snd <$> Scaled.energy_source_options →
     ∃ dfb dfu,
       Scaled.base_energy selected_energy_column dff = Ok dfb ∧
       Scaled.display_energy selected_unit_type dfb = Ok dfu ∧
       (∃ t, Scaled.total_val dfu = Ok t) ∧
       (∃ g, Scaled.hourly_model dfu = Ok g) ∧
       (∃ g, Scaled.cross_data dfu = Ok g) ∧
       (∃ fc, Scaled.forecast_df dfu = Ok fc)).
Proof.
  split.
  - intros df0 df ms ds dff unit Hload Hf Hunit.
    destruct (final_pipeline_loaded_rows _ _ _ _ _ _ Hload Hf Hunit)
      as (_ & _ & _ & Hv & Hrows).
    pose proof (final_load_data_has_columns _ _ Hload) as Hcols.
    rewrite Forall_forall in Hcols.
    pose proof Hf as (Hm & Hd & Hdff)%df_filtered_Ok.
    assert (Hh : "hour" ∈ columns dff).
    { rewrite Hdff. simpl. apply Hcols. by_compute. }
    assert (Hm' : "model_name" ∈ columns dff) by by rewrite Hdff.
    assert (Hd' : "device" ∈ columns dff) by by rewrite Hdff.
    destruct (views_return unit dff Hh Hm' Hd' Hv)
      as (Ht & Hhm & Hde & Hcr & [a Ha]).
    { intros r Hr. by eapply loaded_row_is_num, Hrows. }
    split_and!; try done.
    unfold Final.forecast_df, Final.avg_hourly. rewrite Ha, bind_Ok_l. eauto.
  - intros parse_float df0 df ms ds dff source u Hload Hf Hsource.
    pose proof (scaled_load_data_has_columns _ _ _ Hload) as Hcols.
    rewrite Forall_forall in Hcols.
    pose proof Hf as (Hm & Hd & Hdff)%df_filtered_Ok.
    assert (Hs : source ∈ columns dff).
    { rewrite Hdff. simpl. apply Hcols.
      assert (source ∈ ["final_energy_joules"; "measured_energy_joules";
                        "estimated_energy_joules"]) as Hs by done.
      repeat (apply elem_of_cons in Hs as [->|Hs]);
        first [by_compute | by apply elem_of_nil in Hs]. }
    destruct (base_energy_returns _ _ Hs) as [dfb Hb].
    assert (Hbnum : ∀ r, r ∈ rows dfb → is_num (at_col "base_energy" r)).
    { intros r1 Hr1.
      destruct (rowwise_elem_of _ _ _ _ (base_energy_cells _ _ _ Hb) Hr1)
        as (r & Hr & Hset).
      unfold row_set in Hset. simpl in Hset. injection Hset as <-.
      rewrite at_col_insert_eq.
      rewrite Hdff in Hr. simpl in Hr.
      apply list_elem_of_filter in Hr as [_ Hr].
      destruct (scaled_load_data_rowwise _ _ _ Hload) as [Hrows _].
      destruct (rowwise_elem_of _ _ _ _ Hrows Hr) as (r0 & _ & Hr0).
      destruct (derive_scaled_cells _ _ _ Hr0)
        as (_ & _ & Hme & He & Hfi & _).
      apply cell_mul_is_num in Hme. apply cell_div_is_num in He.
      assert (source ∈ ["final_energy_joules"; "measured_energy_joules";
                        "estimated_energy_joules"]) as Hs' by done.
      repeat (apply elem_of_cons in Hs' as [->|Hs']);
        [rewrite Hfi; by destruct (at_col "measured_energy_joules" r)
        |done|done|by apply elem_of_nil in Hs']. }
    assert (Hbcol : "base_energy" ∈ columns dfb).
    { unfold Scaled.base_energy in Hb. inv_bind Hb. subst dfb.
      apply columns_setcol_elem_of. by left. }
    destruct (display_energy_returns u dfb Hbcol Hbnum) as [dfu Hu].
    exists dfb, dfu. split; [done|]. split; [done|].
    destruct (scaled_pipeline_loaded_rows _ _ _ _ _ _ _ _ _ _
                Hload Hf Hsource Hb Hu) as (_ & _ & _ & Hv & Hrows).
    destruct (display_energy_rowwise _ _ _ Hu) as (Hsub & _).
    assert (Hin : ∀ c, c ∈ columns dff → c ∈ columns dfu).
    { intros c Hc. apply Hsub. unfold Scaled.base_energy in Hb.
      inv_bind Hb. subst dfb. apply columns_setcol_elem_of. by right. }
    assert (Hh : "hour" ∈ columns dfu).
    { apply Hin. rewrite Hdff. simpl. apply Hcols. by_compute. }
    assert (Hm' : "model_name" ∈ columns dfu) by (apply Hin; by rewrite Hdff).
    assert (Hd' : "device" ∈ columns dfu) by (apply Hin; by rewrite Hdff).
    destruct (views_return "display_energy" dfu Hh Hm' Hd' Hv)
      as (Ht & Hhm & _ & Hcr & [a Ha]).
    { intros r Hr. by eapply loaded_row_is_num, Hrows. }
    split_and!; try done.
    unfold Scaled.forecast_df, Scaled.avg_hourly. rewrite Ha, bind_Ok_l.
    eauto.
Qed.

Lemma aggregated_views_return_witness :
  Final.load_data Sample.csv = Ok Sample.loaded_final ∧
  Final.df_filtered Sample.loaded_final [Str "A"; Str "B"] [Str "gpu0"]
    = Ok Sample.filtered_final ∧
  "co2_kg" ∈ snd <$> Final.unit_options ∧
  ∃ fc, Final.forecast_df "co2_kg" Sample.filtered_final = Ok fc.
Proof.
  assert (H1 : Final.load_data Sample.csv = Ok Sample.loaded_final)
    by by_compute.
  assert (H2 : Final.df_filtered Sample.loaded_final [Str "A"; Str "B"]
                 [Str "gpu0"] = Ok Sample.filtered_final) by by_compute.
  assert (H3 : "co2_kg" ∈ snd <$> Final.unit_options) by by_compute.
  split; [exact H1|]. split; [exact H2|]. split; [exact H3|].
  exact (proj2 (proj2 (proj2 (proj2
           (proj1 aggregated_views_return _ _ _ _ _ _ H1 H2 H3))))).
Defined.

(** ** The complexity features and the scatter charts *)







(** ** The heatmap and the weekdays of the table *)

Lemma filter_fmap {A B} (f : A → B) (P : B → Prop)
    `{∀ x, Decision (P x)} (l : list A) :
  filter P (f <$> l) = f <$> filter (λ x, P (f x)) l.
Proof.
  induction l as [|x l IH]; [done|].
  rewrite fmap_cons, !filter_cons. case_decide; [rewrite fmap_cons|];
    by rewrite IH.
Qed.

(** The heatmap returns when no weekday lacks a row, and otherwise raises
    with the weekdays no row of the table is stamped on, in week order. *)
Lemma pivot_missing_weekdays (value : string) (dff : DataFrame) :
  value ≠ "hour_of_day" →
  "created_at" ∈ columns dff → "weekday" ∈ columns dff →
  value ∈ columns dff →
  (∀ r, r ∈ rows dff → loaded_row value r) →
  let missing :=
    filter (λ d, Forall (λ r, ¬ on_day d r) (rows dff)) day_names in
  (missing = [] → ∃ p, Views.pivot value dff = Ok p) ∧
  (missing ≠ [] → Views.pivot value dff = Raise (KeyError missing)).
Proof.
  intros Hv Hc Hw Hval Hrows missing.
  rewrite pivot_eq by done. unfold pivot_table_sum.
  rewrite zip_with_fmap_same.
  change (groupby_sum _ _) with (slot_groups value (rows dff)).
  set (g := slot_groups value (rows dff)).
  unfold select_columns. cbn [pcolumns pivot_fillna unstack].
  assert (Hf : filter (λ n, n ∉ labels 1 g) (Str <$> day_names)
               = Str <$> missing).
  { rewrite filter_fmap. f_equal. apply filter_ext_elem_of.
    intros d _. simpl. rewrite Forall_forall. unfold g.
    rewrite (elem_of_slot_labels value (rows dff) Hrows 1 (Str d)).
    split.
    - intros Hno r Hr Hon. apply Hno. unfold on_day in Hon.
      destruct (at_col "created_at" r) as [| | |t] eqn:Ht; try done.
      exists r, t. split; [done|]. split; [done|]. simpl.
      destruct (loaded_row_created_at _ _ (Hrows r Hr))
        as [[Hna _]|(t' & Ht' & ->)]; congruence.
    - intros Hno (r & t & Hr & Ht & Hday). apply (Hno r Hr).
      unfold on_day. rewrite Ht.
      destruct (loaded_row_created_at _ _ (Hrows r Hr))
        as [[Hna _]|(t' & Ht' & Hwd)]; [congruence|].
      simpl in Hday. rewrite Hwd in Hday. congruence. }
  rewrite Hf. split.
  - intros ->. simpl. eauto.
  - intros Hne. destruct missing as [|d ds] eqn:Hm; [done|].
    simpl. do 3 f_equal. rewrite <- list_fmap_compose.
    by rewrite list_fmap_id.
Qed.

(** X11. The heatmap of a script returns a table exactly when every
    weekday occurs among the timestamps of the filtered rows; otherwise
    the script raises [KeyError] with the weekdays that do not occur, in
    week order. *)
Theorem heatmap_needs_every_weekday :
  (∀ df0 df selected_models selected_devices dff selected_unit,
     Final.load_data df0 = Ok df →
     Final.df_filtered df selected_models selected_devices = Ok dff →
     selected_unit ∈ snd <$> Final.unit_options →
     let missing :=
       filter (λ d, Forall (λ r, ¬ on_day d r) (rows dff)) day_names in
     (missing = [] → ∃ p, Final.pivot selected_unit dff = Ok p) ∧
     (missing ≠ [] →
        Final.pivot selected_unit dff = Raise (KeyError missing))) ∧
  (∀ parse_float df0 df selected_models selected_devices dff
     selected_energy_column dfb selected_unit_type dfu,
     Scaled.load_data parse_float df0 = Ok df →
     Scaled.df_filtered df selected_models selected_devices = Ok dff →
     selected_energy_column ∈ snd <$> Scaled.energy_source_options →
     Scaled.base_energy selected_energy_column dff = Ok dfb →
     Scaled.display_energy selected_unit_type dfb = Ok dfu →
     let missing :=
       filter (λ d, Forall (λ r, ¬ on_day d r) (rows dfu)) day_names in
     (missing = [] → ∃ p, Scaled.pivot dfu = Ok p) ∧
     (missing ≠ [] → Scaled.pivot dfu = Raise (KeyError missing))).
Proof.
  split.
  - intros df0 df ms ds dff unit Hload Hf Hunit.
    destruct (final_pipeline_loaded_rows _ _ _ _ _ _ Hload Hf Hunit)
      as (Hv & Hc & Hw & Hval & Hrows).
    by apply pivot_missing_weekdays.
  - intros parse_float df0 df ms ds dff source dfb u dfu
      Hload Hf Hsource Hb Hu.
    destruct (scaled_pipeline_loaded_rows _ _ _ _ _ _ _ _ _ _
                Hload Hf Hsource Hb Hu) as (Hv & Hc & Hw & Hval & Hrows).
    by apply pivot_missing_weekdays.
Qed.

Lemma heatmap_needs_every_weekday_witness :
  Final.load_data Sample.csv = Ok Sample.loaded_final ∧
  Final.df_filtered Sample.loaded_final [Str "A"; Str "B"] [Str "gpu0"]
    = Ok Sample.filtered_final ∧
  "energy_kwh" ∈ snd <$> Final.unit_options ∧
  Final.pivot "energy_kwh" Sample.filtered_final
    = Raise (KeyError ["Monday"; "Tuesday"; "Wednesday"; "Friday";
                       "Saturday"; "Sunday"]).
Proof.
  assert (H1 : Final.load_data Sample.csv = Ok Sample.loaded_final)
    by by_compute.
  assert (H2 : Final.df_filtered Sample.loaded_final [Str "A"; Str "B"]
                 [Str "gpu0"] = Ok Sample.filtered_final) by by_compute.
  assert (H3 : "energy_kwh" ∈ snd <$> Final.unit_options) by by_compute.
  split; [exact H1|]. split; [exact H2|]. split; [exact H3|].
  destruct (proj1 heatmap_needs_every_weekday _ _ _ _ _ _ H1 H2 H3)
    as [_ Hraise].
  etrans; [apply Hraise; by_compute|]. by_compute.
Defined.

(** ** Groups and their order *)




#[local] Instance key_le_total : Total key_le.
Proof.
  intros k1. unfold key_le.
  induction k1 as [|x k1 IH]; intros [|y k2]; simpl; auto.
  destruct (decide (x = y)) as [->|Hne].
  - rewrite decide_True by done. apply IH.
  - rewrite (decide_False (P := y = x)) by done. apply cell_le_total.
Qed.

(** The keys of a grouped sum: distinct, ascending, the complete keys of
    the rows. *)
Lemma groupby_sum_of_keys on value (df : DataFrame) g :
  Views.groupby_sum_of on value df = Ok g →
  g.*1 = group_keys (key_of on <$> rows df).
Proof. intros ->%groupby_sum_of_Ok. apply fst_fmap_pair. Qed.

(** X12. The grouped views of a script have one entry per group: the keys
    are distinct and ascending, they are the keys of the rows in which no
    key column is missing, and each entry holds the sum of the value
    column over the rows of its key. The entries add up to the total over
    the rows with a complete key: rows with a missing key column are
    dropped from the view, not from the total of the table. *)
Theorem grouped_view_groups
    (on : list string) (value : string) (dff : DataFrame)
    (g : list (list cell * Qc)) :
  Views.groupby_sum_of on value dff = Ok g →
  NoDup g.*1 ∧ Sorted key_le g.*1 ∧
  (∀ k, k ∈ g.*1 ↔ key_notna k ∧ ∃ r, r ∈ rows dff ∧ key_of on r = k) ∧
  (∀ k x, (k, x) ∈ g → x = sum_of value (rows_with on k (rows dff))) ∧
  view_total g
  = sum_of value (filter (λ r, key_notna (key_of on r)) (rows dff)).
Proof.
  intros Hg. pose proof (groupby_sum_of_keys _ _ _ _ Hg) as Hkeys.
  pose proof (groupby_sum_of_Ok _ _ _ _ Hg) as ->.
  rewrite Hkeys. split_and!.
  - apply NoDup_group_keys.
  - apply Sorted_merge_sort, _.
  - intros k. rewrite elem_of_group_keys, list_elem_of_fmap.
    split; intros [Hna (r & ? & ?)]; eauto.
  - intros k x (k' & [= -> ->] & _)%list_elem_of_fmap. done.
  - unfold view_total. rewrite <- list_fmap_compose.
    set (l' := filter (λ r, key_notna (key_of on r)) (rows dff)).
    rewrite <- (sum_of_groups value on
                  (group_keys (key_of on <$> rows dff)) l').
    + apply (gsum_ext (λ k, sum_of value (rows_with on k (rows dff)))
                      (λ k, sum_of value (rows_with on k l'))).
      intros k [Hna _]%elem_of_group_keys. f_equal.
      unfold rows_with, l'. rewrite list_filter_filter.
      apply filter_ext_elem_of. intros r _. split; [|tauto].
      intros <-. done.
    + apply NoDup_group_keys.
    + intros r [Hna Hr]%list_elem_of_filter. apply elem_of_group_keys.
      split; [done|]. by apply list_elem_of_fmap_2.
Qed.

Lemma grouped_view_groups_witness :
  let g := Sample.the [] (Views.cross_data "energy_joules"
                            Sample.loaded_final) in
  Views.groupby_sum_of ["model_name"; "device"] "energy_joules"
    Sample.loaded_final = Ok g ∧
  g.*1 = [[Str "A"; Str "gpu0"]] ∧
  view_total g = qz 10800.
Proof.
  intros g.
  assert (H1 : Views.groupby_sum_of ["model_name"; "device"] "energy_joules"
                 Sample.loaded_final = Ok g) by by_compute.
  split; [exact H1|]. split; [by_compute|].
  destruct (grouped_view_groups _ _ _ _ H1) as (_ & _ & _ & _ & Ht).
  etrans; [exact Ht|]. by_compute.
Defined.



(** ** The options of the sidebar *)

Lemma remove_dups_cons (l : list cell) a :
  remove_dups (a :: l)
  = if decide (a ∈ l) then remove_dups l else a :: remove_dups l.
Proof. done. Qed.

Lemma remove_dups_snoc (l : list cell) x :
  remove_dups (l ++ [x])%list
  = (filter (λ y, y ≠ x) (remove_dups l) ++ [x])%list.
Proof.
  induction l as [|a l IH]; [done|].
  rewrite <- app_comm_cons, !remove_dups_cons.
  destruct (decide (a = x)) as [->|Hne].
  - rewrite (decide_True (P := x ∈ (l ++ [x])%list))
      by (apply elem_of_app; right; by left).
    rewrite IH. f_equal.
    destruct (decide (x ∈ l)); [done|].
    rewrite filter_cons, decide_False by (by intros ?). done.
  - destruct (decide (a ∈ l)) as [Hin|Hout].
    + rewrite (decide_True (P := a ∈ (l ++ [x])%list))
        by (apply elem_of_app; by left).
      exact IH.
    + rewrite (decide_False (P := a ∈ (l ++ [x])%list)).
      * rewrite filter_cons, decide_True by done. simpl. by rewrite IH.
      * intros [?|Hx%list_elem_of_singleton]%elem_of_app; done.
Qed.

Lemma unique_cons (s : Series) x :
  unique (x :: s) = x :: filter (λ y, y ≠ x) (unique s).
Proof.
  unfold unique.
  rewrite reverse_cons, remove_dups_snoc, reverse_app, reverse_singleton.
  change ([x] ++ ?l)%list with (x :: l). f_equal. symmetry.
  apply filter_reverse.
Qed.

Lemma NoDup_unique (s : Series) : NoDup (unique s).
Proof.
  unfold unique. rewrite reverse_Permutation. apply NoDup_remove_dups.
Qed.

(** X14. The option lists of the sidebar: the model options are the values
    of [model_name], each once, and hold the missing value when a row has
    no model name; the device options are the values of [device] that are
    not missing, each once. Both come in the order of first occurrence in
    the table, and reading them raises [KeyError] exactly when the table
    lacks the column. *)
Theorem sidebar_options (df : DataFrame) :
  ("model_name" ∈ columns df →
     ∃ opts, Views.model_options df = Ok opts ∧ NoDup opts ∧
       (∀ x, x ∈ opts ↔ ∃ r, r ∈ rows df ∧ at_col "model_name" r = x) ∧
       opts = unique (at_col "model_name" <$> rows df)) ∧
  ("model_name" ∉ columns df →
     Views.model_options df = Raise (KeyError ["model_name"])) ∧
  ("device" ∈ columns df →
     ∃ opts, Views.device_options df = Ok opts ∧ NoDup opts ∧
       (∀ x, x ∈ opts ↔
             x ≠ NaN ∧ ∃ r, r ∈ rows df ∧ at_col "device" r = x) ∧
       opts = unique (filter (λ x, x ≠ NaN) (at_col "device" <$> rows df))) ∧
  ("device" ∉ columns df →
     Views.device_options df = Raise (KeyError ["device"])) ∧
  (∀ (s : Series) x, unique (x :: s) = x :: filter (λ y, y ≠ x) (unique s)).
Proof.
  split_and!.
  - intros Hc. eexists. split.
    { unfold Views.model_options.
      by rewrite (getcol_intro _ _ Hc), bind_Ok_l. }
    split; [apply NoDup_unique|]. split; [|done].
    apply model_options_Ok. unfold Views.model_options.
    by rewrite (getcol_intro _ _ Hc), bind_Ok_l.
  - intros Hc. unfold Views.model_options, getcol.
    by rewrite decide_False by done.
  - intros Hc.
    assert (Hopts : Views.device_options df
                    = Ok (unique (dropna (at_col "device" <$> rows df)))).
    { unfold Views.device_options.
      by rewrite (getcol_intro _ _ Hc), bind_Ok_l. }
    eexists. split; [exact Hopts|].
    split; [apply NoDup_unique|]. split; [by apply device_options_Ok|].
    f_equal. unfold dropna. apply filter_ext_elem_of.
    intros x _. by destruct x.
  - intros Hc. unfold Views.device_options, getcol.
    by rewrite decide_False by done.
  - intros s x. apply unique_cons.
Qed.

Lemma sidebar_options_witness :
  "model_name" ∈ columns Sample.csv ∧ "device" ∈ columns Sample.csv ∧
  Views.model_options Sample.csv = Ok [Str "A"; Str "B"] ∧
  Views.device_options Sample.csv = Ok [Str "gpu0"].
Proof.
  assert (H1 : "model_name" ∈ columns Sample.csv) by by_compute.
  assert (H2 : "device" ∈ columns Sample.csv) by by_compute.
  split; [exact H1|]. split; [exact H2|].
  destruct (sidebar_options Sample.csv) as (Hm & _ & Hd & _).
  destruct (Hm H1) as (ms & Hms & _ & _ & ->).
  destruct (Hd H2) as (ds & Hds & _ & _ & ->).
  split; (etrans; [eassumption|by_compute]).
Defined.

(** ** Selections and totals *)

Lemma sum_of_app value l1 l2 :
  sum_of value (l1 ++ l2)%list = (sum_of value l1 + sum_of value l2)%Qc.
Proof.
  induction l1 as [|r l1 IH]; simpl.
  - unfold sum_of at 2. simpl. ring.
  - rewrite !sum_of_cons, IH. ring.
Qed.

Lemma sum_of_filter_split value (P Q : gmap string cell → Prop)
    `{∀ r, Decision (P r), ∀ r, Decision (Q r)} l :
  (∀ r, r ∈ l → ¬ (P r ∧ Q r)) →
  sum_of value (filter (λ r, P r ∨ Q r) l)
  = (sum_of value (filter P l) + sum_of value (filter Q l))%Qc.
Proof.
  induction l as [|r l IH]; intros Hex.
  - unfold sum_of. simpl. ring.
  - assert (Hr : ¬ (P r ∧ Q r)) by (apply Hex; by left).
    rewrite !filter_cons.
    destruct (decide (P r)), (decide (Q r));
      [tauto| | |];
      [rewrite decide_True by tauto|rewrite decide_True by tauto
      |rewrite decide_False by tauto];
      rewrite ?sum_of_cons, IH by (intros; apply Hex; by right); ring.
Qed.

(** X15. Selecting more never removes rows: the table filtered by smaller
    selections is a sub-table of the one filtered by larger selections.
    And the total adds up over devices: for two selections of devices
    without a common device, the total of the table filtered by both is
    the sum of the totals of the tables filtered by each. *)
Theorem selections_grow_and_totals_add
    (value : string) (df : DataFrame) (ms ms' ds1 ds2 : list cell) :
  (∀ dff dff',
     ms ⊆ ms' → ds1 ⊆ ds2 →
     Views.df_filtered df ms ds1 = Ok dff →
     Views.df_filtered df ms' ds2 = Ok dff' →
     rows dff `sublist_of` rows dff') ∧
  (∀ dff1 dff2 t1 t2,
     (∀ d, d ∈ ds1 → d ∉ ds2) →
     Views.df_filtered df ms ds1 = Ok dff1 →
     Views.df_filtered df ms ds2 = Ok dff2 →
     Views.total_val value dff1 = Ok t1 →
     Views.total_val value dff2 = Ok t2 →
     ∃ dff, Views.df_filtered df ms (ds1 ++ ds2)%list = Ok dff ∧
            Views.total_val value dff = Ok (t1 + t2)%Qc).
Proof.
  split.
  - intros dff dff' Hms Hds (_ & _ & ->)%df_filtered_Ok
      (_ & _ & ->)%df_filtered_Ok. simpl.
    assert (filter (selected ms ds1) (rows df)
            = filter (selected ms ds1) (filter (selected ms' ds2) (rows df)))
      as ->; [|apply sublist_filter].
    rewrite list_filter_filter. apply filter_ext_elem_of.
    intros r _. unfold selected. split; [|tauto].
    intros [? ?]. split_and!; auto.
  - intros dff1 dff2 t1 t2 Hdisj (Hm & Hd & ->)%df_filtered_Ok
      (_ & _ & ->)%df_filtered_Ok Ht1 Ht2.
    eexists. split; [by apply df_filtered_Ok|].
    pose proof Ht1 as (Hv & _ & ->)%total_val_Ok.
    pose proof Ht2 as (_ & _ & ->)%total_val_Ok. simpl in *.
    assert (Hfil : filter (selected ms (ds1 ++ ds2)%list) (rows df)
                   = filter (λ r, selected ms ds1 r ∨ selected ms ds2 r)
                       (rows df)).
    { apply filter_ext_elem_of. intros r _. unfold selected.
      rewrite elem_of_app. tauto. }
    rewrite <- (sum_of_filter_split value (selected ms ds1) (selected ms ds2))
      by (intros r _ [[_ H1] [_ H2]]; by apply (Hdisj _ H1)).
    rewrite <- Hfil. apply total_val_intro; [done|]. simpl.
    intros r Hr. rewrite Hfil in Hr.
    apply list_elem_of_filter in Hr as [[Hs|Hs] Hr].
    + eapply (total_val_is_num _ _ _ _ Ht1). simpl.
      by apply list_elem_of_filter.
    + eapply (total_val_is_num _ _ _ _ Ht2). simpl.
      by apply list_elem_of_filter.
Qed.

Lemma selections_grow_and_totals_add_witness :
  let dff1 := Sample.the Sample.csv
                (Views.df_filtered Sample.loaded_final [Str "A"; Str "B"]
                   [Str "gpu0"]) in
  let dff2 := Sample.the Sample.csv
                (Views.df_filtered Sample.loaded_final [Str "A"; Str "B"]
                   [NaN]) in
  Views.total_val "energy_joules" dff1 = Ok (qz 10800) ∧
  Views.total_val "energy_joules" dff2 = Ok (qz 0) ∧
  ∃ dff, Views.df_filtered Sample.loaded_final [Str "A"; Str "B"]
           [Str "gpu0"; NaN] = Ok dff ∧
         Views.total_val "energy_joules" dff = Ok (qz 10800 + qz 0)%Qc.
Proof.
  intros dff1 dff2.
  assert (H0 : ∀ d, d ∈ [Str "gpu0"] → d ∉ [NaN]).
  { intros d ->%list_elem_of_singleton. by_compute. }
  assert (H1 : Views.df_filtered Sample.loaded_final [Str "A"; Str "B"]
                 [Str "gpu0"] = Ok dff1) by by_compute.
  assert (H2 : Views.df_filtered Sample.loaded_final [Str "A"; Str "B"]
                 [NaN] = Ok dff2) by by_compute.
  assert (H3 : Views.total_val "energy_joules" dff1 = Ok (qz 10800))
    by by_compute.
  assert (H4 : Views.total_val "energy_joules" dff2 = Ok (qz 0))
    by by_compute.
  split; [exact H3|]. split; [exact H4|].
  exact (proj2 (selections_grow_and_totals_add "energy_joules"
                  Sample.loaded_final [Str "A"; Str "B"] [Str "A"; Str "B"]
                  [Str "gpu0"] [NaN])
           _ _ _ _ H0 H1 H2 H3 H4).
Defined.

(** ** The unit suffix of the titles *)

Lemma string_app_nil (s : string) : "" +:+ s = s.
Proof. done. Qed.

Lemma string_app_cons a (s1 s2 : string) :
  String a s1 +:+ s2 = String a (s1 +:+ s2).
Proof. done. Qed.

Lemma string_app_assoc (s1 s2 s3 : string) :
  (s1 +:+ s2) +:+ s3 = s1 +:+ s2 +:+ s3.
Proof.
  induction s1 as [|a s1 IH]; [done|]. rewrite !string_app_cons.
  by rewrite IH.
Qed.

Lemma string_app_nonempty (s1 s2 : string) a : s1 +:+ String a s2 ≠ "".
Proof.
  destruct s1; [rewrite string_app_nil|rewrite string_app_cons]; done.
Qed.

(** The pieces of a split: the last piece is the end of the string and
    holds no separator. *)
Lemma split_pieces sep s :
  ∃ ws w pre,
    Py.split sep s = (ws ++ [w])%list ∧ s = pre +:+ w ∧
    (∀ p q, w ≠ p +:+ String sep q) ∧ (ws = [] → pre = "").
Proof.
  induction s as [|a s IH].
  - exists [], "", "". split_and!; try done.
    intros p q H. symmetry in H. by apply string_app_nonempty in H.
  - destruct IH as (ws & w & pre & Hsp & Hs & Hno & Hpre). simpl.
    case_decide as Ha.
    + exists ("" :: ws), w, (String a pre). rewrite Hsp.
      split_and!; try done. by rewrite string_app_cons, <- Hs.
    + rewrite Hsp. destruct ws as [|u ws]; simpl.
      * exists [], (String a w), "".
        rewrite (Hpre eq_refl), string_app_nil in Hs. subst s.
        split_and!; try done.
        intros [|b p] q H;
          [rewrite string_app_nil in H|rewrite string_app_cons in H];
          injection H as ? H; [done|]. by eapply Hno.
      * exists (String a u :: ws), w, (String a pre).
        split_and!; try done. by rewrite string_app_cons, <- Hs.
Qed.

Lemma lstrip_part chars s : ∃ pre, s = pre +:+ Py.lstrip chars s.
Proof.
  induction s as [|a s [pre IH]]; simpl; [by exists ""|].
  case_decide; [|by exists ""].
  exists (String a pre). by rewrite string_app_cons, <- IH.
Qed.

Lemma lstrip_head chars s a r : Py.lstrip chars s = String a r → a ∉ chars.
Proof.
  induction s as [|b s IH]; simpl; [done|].
  case_decide; [done|]. by intros [= <- _].
Qed.

Lemma rstrip_part chars s : ∃ post, s = Py.rstrip chars s +:+ post.
Proof.
  induction s as [|a s [post IH]]; simpl; [by exists ""|].
  destruct (Py.rstrip chars s) as [|b r] eqn:Hr.
  - case_decide; [by exists (String a s)|].
    exists post. by rewrite string_app_cons, <- IH.
  - exists post. by rewrite string_app_cons, <- IH.
Qed.

Lemma rstrip_last chars s r a :
  Py.rstrip chars s = r +:+ String a "" → a ∉ chars.
Proof.
  revert r. induction s as [|b s IH]; intros r; simpl.
  - intros H. symmetry in H. by apply string_app_nonempty in H.
  - destruct (Py.rstrip chars s) as [|c t] eqn:Hr.
    + case_decide as Hb.
      * intros H. symmetry in H. by apply string_app_nonempty in H.
      * destruct r as [|d r];
          [rewrite string_app_nil|rewrite string_app_cons]; intros H.
        -- by injection H as <-.
        -- injection H as _ H. symmetry in H.
           by apply string_app_nonempty in H.
    + destruct r as [|d r];
        [rewrite string_app_nil|rewrite string_app_cons]; intros H.
      * by injection H as _ H.
      * injection H as _ H. by eapply IH.
Qed.

Lemma strip_part chars s : ∃ pre post, s = pre +:+ Py.strip chars s +:+ post.
Proof.
  unfold Py.strip. destruct (rstrip_part chars s) as [post Hpost].
  destruct (lstrip_part chars (Py.rstrip chars s)) as [pre Hpre].
  exists pre, post. by rewrite <- string_app_assoc, <- Hpre.
Qed.

Lemma strip_last chars s r a :
  Py.strip chars s = r +:+ String a "" → a ∉ chars.
Proof.
  unfold Py.strip. intros H.
  destruct (lstrip_part chars (Py.rstrip chars s)) as [pre Hpre].
  rewrite H, <- string_app_assoc in Hpre. by eapply rstrip_last.
Qed.

(** X16. The unit suffix of the titles is a part of the selected label,
    taken from its last word: it holds no space and neither starts nor
    ends with a parenthesis. For the labels of the unit options of the
    two scripts it is J, kWh, kg and Hours. *)
Theorem unit_suffix_of_label :
  (∀ label,
     (∃ pre post, label = pre +:+ Views.unit_suffix label +:+ post) ∧
     (∀ pre post, Views.unit_suffix label ≠ pre +:+ " " +:+ post) ∧
     (∀ rest, Views.unit_suffix label ≠ "(" +:+ rest ∧
              Views.unit_suffix label ≠ ")" +:+ rest) ∧
     (∀ rest, Views.unit_suffix label ≠ rest +:+ "(" ∧
              Views.unit_suffix label ≠ rest +:+ ")")) ∧
  Views.unit_suffix <$> (fst <$> Final.unit_options)
    = ["J"; "kWh"; "kg"; "Hours"] ∧
  Views.unit_suffix <$> (fst <$> Scaled.unit_options)
    = ["J"; "kWh"; "kg"; "Hours"].
Proof.
  split; [|split; by_compute].
  intros label. unfold Views.unit_suffix.
  destruct (split_pieces " " label) as (ws & w & pre & -> & Hs & Hno & _).
  rewrite last_snoc.
  destruct (strip_part ["("; ")"]%char w) as (p & q & Hw).
  split_and!.
  - exists (pre +:+ p), q. by rewrite string_app_assoc, <- Hw.
  - intros p' q' H. rewrite H in Hw. apply (Hno (p +:+ p') (q' +:+ q)).
    rewrite Hw, !string_app_assoc. done.
  - intros rest. split; intros H;
      rewrite string_app_cons, string_app_nil in H;
      apply lstrip_head in H; apply H; [by left|right; by left].
  - intros rest. split; intros H;
      apply strip_last in H; apply H; [by left|right; by left].
Qed.

Lemma unit_suffix_of_label_witness :
  Views.unit_suffix "CO₂ Emissions (kg)" = "kg" ∧
  ∃ pre post,
    "CO₂ Emissions (kg)"
    = pre +:+ Views.unit_suffix "CO₂ Emissions (kg)" +:+ post.
Proof.
  split; [by_compute|].
  exact (proj1 (proj1 unit_suffix_of_label "CO₂ Emissions (kg)")).
Defined.
